(** * The dispatch engine of the time/weather MCP server (src/main.py)

    A shallow embedding of [list_tools], [call_tool], [time_tool],
    [weather_tool] and [stream_generator], and the properties of the
    request/response protocol they implement.

    Python values that come out of [json.loads] are the type [json]; the
    statements of a Python function become a computation in the monad [M],
    which carries the function's result or the exception it raised together
    with the trace of what the function did: the lines it yielded, the calls
    it made into the tool registry and the calls it made to the outside
    (clock, time zone database, environment, network, standard output). *)

From Stdlib Require Import String Ascii List ZArith Bool Lia.
From Stdlib Require Import Strings.Byte DecimalString SpecFloat.
Import ListNotations.
Open Scope string_scope.
Open Scope Z_scope.
Set Warnings "-register-all".

(** ** Values *)

(** What [json.loads] returns: [None], [bool], [int], [float], [str], [list]
    and [dict] with [str] keys.  A [dict] keeps its items in insertion order,
    [dict_get] reads the first item of a key (a Python dict has one). *)
Inductive json : Type :=
| JNull
| JBool (b : bool)
| JInt (n : Z)
| JFloat (f : spec_float)
| JStr (s : string)
| JList (l : list json)
| JDict (d : list (string * json)).

Fixpoint dict_get (d : list (string * json)) (key : string) : option json :=
  match d with
  | [] => None
  | (k, v) :: rest => if String.eqb k key then Some v else dict_get rest key
  end.

Definition lookup (d : list (string * json)) (key : string) (default : json) : json :=
  match dict_get d key with
  | Some x => x
  | None => default
  end.

(** [type(v).__name__] *)
Definition type_name (v : json) : string :=
  match v with
  | JNull => "NoneType"
  | JBool _ => "bool"
  | JInt _ => "int"
  | JFloat _ => "float"
  | JStr _ => "str"
  | JList _ => "list"
  | JDict _ => "dict"
  end.

(** [bool(v)]: what [if v:] and [if not v:] test. *)
Definition truthy (v : json) : bool :=
  match v with
  | JNull => false
  | JBool b => b
  | JInt n => negb (n =? 0)
  | JFloat (S754_zero _) => false
  | JFloat _ => true
  | JStr s => negb (String.eqb s EmptyString)
  | JList [] => false
  | JList _ => true
  | JDict [] => false
  | JDict _ => true
  end.

(** [v == s] for a string literal [s]: only an equal [str] compares equal. *)
Definition eq_str (v : json) (s : string) : bool :=
  match v with
  | JStr t => String.eqb t s
  | _ => false
  end.

Definition is_dict (v : json) : bool :=
  match v with
  | JDict _ => true
  | _ => false
  end.

(** ** Exceptions and outcomes *)

(** An exception object: its class, whether the class derives from
    [requests.RequestException], and [str(e)].  Every exception of the model
    derives from [Exception]. *)
Record exn : Type := mkExn {
  exn_class : string;
  is_RequestException : bool;
  exn_text : string
}.

Definition AttributeError (msg : string) : exn := mkExn "AttributeError" false msg.
Definition ValueError (msg : string) : exn := mkExn "ValueError" false msg.
Definition KeyError (msg : string) : exn := mkExn "KeyError" false msg.

Inductive outcome (A : Type) : Type :=
| Return (a : A)
| Raise (e : exn).
Arguments Return {A} a.
Arguments Raise {A} e.

(** ** The library types of the source *)

Module types.
(** [mcp.types.Tool] *)
Record Tool : Type := mkTool {
  name : string;
  description : string;
  inputSchema : json
}.
(** [mcp.types.TextContent] *)
Record TextContent : Type := mkTextContent {
  type : string;
  text : string
}.
End types.

(** A [datetime.datetime]: an instant and the zone attached to it, [None] for
    the naive value [datetime.datetime.now()] returns. *)
Record datetime : Type := mkDatetime {
  instant : Z;
  tzinfo : option string
}.

(** A [requests.Response], by the two methods the source calls on it. *)
Record Response : Type := mkResponse {
  raise_for_status : outcome unit;
  response_json : outcome json
}.

(** ** The trace *)

Inductive event : Type :=
| Yield (payload : json)                (* yield json.dumps(payload) + newline *)
| ListTools                             (* the registry: list_tools() *)
| CallTool (tool_name arguments : json) (* the registry: call_tool(name, arguments) *)
| ClockNow                              (* datetime.datetime.now() *)
| ZoneLookup (key : json)               (* ZoneInfo(key) *)
| LoadDotenv                            (* load_dotenv() *)
| GetEnv (var : string)                 (* os.getenv(var) *)
| Print (line : string)                 (* print(line) *)
| HttpGet (url : string).               (* requests.get(url, timeout=10) *)

(** The payloads of the lines a run yielded, in order. *)
Fixpoint yields (t : list event) : list json :=
  match t with
  | [] => []
  | Yield p :: rest => p :: yields rest
  | _ :: rest => yields rest
  end.

(** ** The monad: a trace and an outcome *)

Definition M (A : Type) : Type := list event * outcome A.

Definition ret {A} (a : A) : M A := ([], Return a).
Definition raise {A} (e : exn) : M A := ([], Raise e).
Definition lift {A} (o : outcome A) : M A := ([], o).
Definition emit (ev : event) : M unit := ([ev], Return tt).

Definition bind {A B} (m : M A) (f : A -> M B) : M B :=
  match m with
  | (t, Return a) => let (t', r) := f a in ((t ++ t')%list, r)
  | (t, Raise e) => (t, Raise e)
  end.

(** [try: m  except Exception as e: h e] *)
Definition try_except {A} (m : M A) (h : exn -> M A) : M A :=
  match m with
  | (t, Raise e) => let (t', r) := h e in ((t ++ t')%list, r)
  | (t, Return a) => (t, Return a)
  end.

(** [try: m  except requests.RequestException as e: h1 e
            except Exception as e: h2 e] *)
Definition try_except2 {A} (m : M A) (h1 h2 : exn -> M A) : M A :=
  try_except m (fun e => if is_RequestException e then h1 e else h2 e).

Notation "x <- m ;; k" := (bind m (fun x => k))
  (at level 61, m at next level, right associativity).
Notation "m ;; k" := (bind m (fun _ => k))
  (at level 61, right associativity).

Definition trace {A} (m : M A) : list event := fst m.
Definition returned {A} (m : M A) : outcome A := snd m.

(** ** The world outside the program

    The standard library and the third-party calls of the source, each by
    what it returns.  Nothing is assumed about them. *)
Record World : Type := mkWorld {
  decode : list byte -> outcome string;            (* request_body.decode() *)
  json_loads : string -> outcome json;             (* json.loads *)
  float_repr : spec_float -> string;               (* repr of a float *)
  str_repr : string -> string;                     (* repr of a str *)
  now : datetime;                                  (* datetime.datetime.now() *)
  ZoneInfo : json -> outcome string;               (* zoneinfo.ZoneInfo(key) *)
  astimezone : datetime -> string -> outcome datetime;
  strftime : datetime -> string -> outcome string;
  load_dotenv : outcome bool;                      (* load_dotenv() *)
  getenv : string -> option string;                (* os.getenv after load_dotenv() *)
  print : string -> outcome unit;                  (* print(line) *)
  requests_get : string -> outcome Response;       (* requests.get(url, timeout=10) *)
  subscript_TypeError : json -> exn                (* v[key] on a value that is no dict *)
}.

(** The outcome of a statement that may leave the function early: the value
    it computed, or the value a [return] inside it gave. *)
Inductive flow (A R : Type) : Type :=
| Normal (a : A)
| Returned (r : R).
Arguments Normal {A R} a.
Arguments Returned {A R} r.

Definition degree_sign : string := String "194"%char (String "176"%char EmptyString).

Section Program.

Variable w : World.

(** ** Python built-ins on [json] values *)

(** [repr(v)] *)
Fixpoint py_repr (v : json) : string :=
  match v with
  | JNull => "None"
  | JBool true => "True"
  | JBool false => "False"
  | JInt n => NilZero.string_of_int (Z.to_int n)
  | JFloat f => float_repr w f
  | JStr s => str_repr w s
  | JList l => "[" ++ String.concat ", " (map py_repr l) ++ "]"
  | JDict d =>
      "{" ++ String.concat ", "
               (map (fun kv => match kv with
                               | (k, x) => str_repr w k ++ ": " ++ py_repr x
                               end) d) ++ "}"
  end.

(** [str(v)], which is also what an f-string field [{v}] gives. *)
Definition py_str (v : json) : string :=
  match v with
  | JStr s => s
  | _ => py_repr v
  end.

(** [v.get(key, default)]; [v.get(key)] is [get v key JNull]. *)
Definition get (v : json) (key : string) (default : json) : outcome json :=
  match v with
  | JDict d =>
      Return (lookup d key default)
  | _ =>
      Raise (AttributeError ("'" ++ type_name v ++ "' object has no attribute 'get'"))
  end.

(** [v[key]] for a string [key]. *)
Definition getitem (v : json) (key : string) : outcome json :=
  match v with
  | JDict d =>
      match dict_get d key with
      | Some x => Return x
      | None => Raise (KeyError (str_repr w key))
      end
  | _ => Raise (subscript_TypeError w v)
  end.

Definition text_content (s : string) : types.TextContent :=
  types.mkTextContent "text" s.

(** ** The registry *)

Definition list_tools : M (list types.Tool) :=
  emit ListTools ;;
  ret [ types.mkTool
          "time_tool"
          "Get current time for a timezone (e.g. Asia/Kolkata)"
          (JDict [
             ("type", JStr "object");
             ("properties", JDict [
                ("input_timezone", JDict [
                   ("type", JStr "string");
                   ("description", JStr "Timezone identifier (e.g., 'Asia/Kolkata', 'America/New_York'). Optional, defaults to system timezone.")
                ])
             ]);
             ("additionalProperties", JBool false)
          ]);
        types.mkTool
          "weather_tool"
          "Provides weather info for a given location"
          (JDict [
             ("type", JStr "object");
             ("properties", JDict [
                ("location", JDict [
                   ("type", JStr "string");
                   ("description", JStr "Location to get weather for (city name, coordinates, etc.)")
                ])
             ]);
             ("required", JList [JStr "location"]);
             ("additionalProperties", JBool false)
          ])
      ].

Definition time_tool (input_timezone : json) : M (list types.TextContent) :=
  try_except
    (let fmt := "%Y-%m-%d %H:%M:%S %Z%z" in
     emit ClockNow ;;
     step <- (if truthy input_timezone then
                try_except
                  (emit (ZoneLookup input_timezone) ;;
                   zone <- lift (ZoneInfo w input_timezone) ;;
                   converted <- lift (astimezone w (now w) zone) ;;
                   ret (Normal converted))
                  (fun e =>
                     ret (Returned
                            [text_content ("Invalid timezone '" ++ py_str input_timezone
                                           ++ "'. Error: " ++ exn_text e)]))
              else ret (Normal (now w))) ;;
     match step with
     | Returned r => ret r
     | Normal now_ =>
         formatted <- lift (strftime w now_ fmt) ;;
         ret [text_content ("The current time is " ++ formatted ++ ".")]
     end)
    (fun e => ret [text_content ("Error getting time: " ++ exn_text e)]).

Definition weather_tool (location : json) : M (list types.TextContent) :=
  if negb (truthy location) then
    ret [text_content "Location parameter is required."]
  else
    try_except2
      (emit LoadDotenv ;;
       lift (load_dotenv w) ;;
       emit (GetEnv "WEATHER_API_KEY") ;;
       match getenv w "WEATHER_API_KEY" with
       | None =>
           ret [text_content "Weather API key not found. Please set WEATHER_API_KEY environment variable."]
       | Some api_key =>
           if String.eqb api_key EmptyString then
             ret [text_content "Weather API key not found. Please set WEATHER_API_KEY environment variable."]
           else
             let url := "http://api.weatherapi.com/v1/current.json?key=" ++ api_key
                        ++ "&q=" ++ py_str location ++ "&aqi=no" in
             emit (Print url) ;;
             lift (print w url) ;;
             emit (HttpGet url) ;;
             resp <- lift (requests_get w url) ;;
             lift (raise_for_status resp) ;;
             body <- lift (response_json resp) ;;
             data <- lift (get body "current" JNull) ;;
             if negb (truthy data) then
               ret [text_content ("Sorry, couldn't find weather for " ++ py_str location ++ ".")]
             else
               condition <- lift (getitem data "condition") ;;
               condition_text <- lift (getitem condition "text") ;;
               temp_c <- lift (getitem data "temp_c") ;;
               ret [text_content ("The weather in " ++ py_str location ++ " is "
                                  ++ py_str condition_text ++ " at " ++ py_str temp_c
                                  ++ degree_sign ++ "C.")]
       end)
      (fun e => ret [text_content ("Error fetching weather data: " ++ exn_text e)])
      (fun e => ret [text_content ("Error getting weather: " ++ exn_text e)]).

Definition call_tool (name arguments : json) : M (list types.TextContent) :=
  emit (CallTool name arguments) ;;
  if eq_str name "time_tool" then
    input_timezone <- lift (get arguments "input_timezone" JNull) ;;
    time_tool input_timezone
  else if eq_str name "weather_tool" then
    location <- lift (get arguments "location" JNull) ;;
    weather_tool location
  else
    raise (ValueError ("Unknown tool: " ++ py_str name)).

(** ** The dispatch engine *)

Definition stream_generator (request_body : list byte) : M unit :=
  try_except
    (decoded <- lift (decode w request_body) ;;
     message <- lift (json_loads w decoded) ;;
     method <- lift (get message "method" JNull) ;;
     if eq_str method "initialize" then
       id <- lift (get message "id" JNull) ;;
       let response :=
         JDict [
           ("jsonrpc", JStr "2.0");
           ("id", id);
           ("result", JDict [
              ("protocolVersion", JStr "2024-11-05");
              ("capabilities", JDict [("tools", JDict [])]);
              ("serverInfo", JDict [
                 ("name", JStr "time-weather-mcp");
                 ("version", JStr "1.0.0")
              ])
           ])
         ] in
       emit (Yield response)
     else
       method <- lift (get message "method" JNull) ;;
       if eq_str method "tools/list" then
         tools <- list_tools ;;
         let tools_dict :=
           map (fun tool =>
                  JDict [
                    ("name", JStr (types.name tool));
                    ("description", JStr (types.description tool));
                    ("inputSchema", types.inputSchema tool)
                  ]) tools in
         id <- lift (get message "id" JNull) ;;
         let response :=
           JDict [
             ("jsonrpc", JStr "2.0");
             ("id", id);
             ("result", JDict [("tools", JList tools_dict)])
           ] in
         emit (Yield response)
       else
         method <- lift (get message "method" JNull) ;;
         if eq_str method "tools/call" then
           params <- lift (get message "params" (JDict [])) ;;
           tool_name <- lift (get params "name" JNull) ;;
           arguments <- lift (get params "arguments" (JDict [])) ;;
           try_except
             (result <- call_tool tool_name arguments ;;
              let content :=
                map (fun content =>
                       JDict [
                         ("type", JStr (types.type content));
                         ("text", JStr (types.text content))
                       ]) result in
              id <- lift (get message "id" JNull) ;;
              let response :=
                JDict [
                  ("jsonrpc", JStr "2.0");
                  ("id", id);
                  ("result", JDict [("content", JList content)])
                ] in
              emit (Yield response))
             (fun e =>
                id <- lift (get message "id" JNull) ;;
                let error_response :=
                  JDict [
                    ("jsonrpc", JStr "2.0");
                    ("id", id);
                    ("error", JDict [
                       ("code", JInt (-32000));
                       ("message", JStr (exn_text e))
                    ])
                  ] in
                emit (Yield error_response))
         else
           (* Unknown method *)
           id <- lift (get message "id" JNull) ;;
           method <- lift (get message "method" JNull) ;;
           let error_response :=
             JDict [
               ("jsonrpc", JStr "2.0");
               ("id", id);
               ("error", JDict [
                  ("code", JInt (-32601));
                  ("message", JStr ("Method not found: " ++ py_str method))
               ])
             ] in
           emit (Yield error_response))
    (fun e =>
       let error_response :=
         JDict [
           ("jsonrpc", JStr "2.0");
           ("id", JNull);
           ("error", JDict [
              ("code", JInt (-32700));
              ("message", JStr ("Parse error: " ++ exn_text e))
           ])
         ] in
       emit (Yield error_response)).

End Program.

(** ** Vocabulary of the statements *)

(** What the decode step of [stream_generator] gives for a body. *)
Definition parse (w : World) (request_body : list byte) : outcome json :=
  match decode w request_body with
  | Return decoded => json_loads w decoded
  | Raise e => Raise e
  end.

(** The envelopes a request is answered with, in the order they are sent. *)
Definition emitted (w : World) (request_body : list byte) : list json :=
  yields (trace (stream_generator w request_body)).

Definition result_envelope (id result : json) : json :=
  JDict [("jsonrpc", JStr "2.0"); ("id", id); ("result", result)].

Definition error_envelope (id : json) (code : Z) (message : string) : json :=
  JDict [("jsonrpc", JStr "2.0"); ("id", id);
         ("error", JDict [("code", JInt code); ("message", JStr message)])].

(** The result of a tool call: the sequence of content items. *)
Definition content_result (items : list types.TextContent) : json :=
  JDict [("content",
          JList (map (fun c => JDict [("type", JStr (types.type c));
                                      ("text", JStr (types.text c))]) items))].

(** A field of a decoded message, [None] when the message is no object or
    has no such field. *)
Definition field (message : json) (key : string) : option json :=
  match message with
  | JDict d => dict_get d key
  | _ => None
  end.

(** The [id] of a request: the field, null when it is absent. *)
Definition request_id (message : json) : json :=
  match field message "id" with
  | Some id => id
  | None => JNull
  end.

Definition response_id (envelope : json) : option json := field envelope "id".

(** The [error.code] of an envelope, [None] for a Result. *)
Definition error_code (envelope : json) : option json :=
  match field envelope "error" with
  | Some e => field e "code"
  | None => None
  end.

Definition is_result (envelope : json) : bool :=
  match field envelope "result", field envelope "error" with
  | Some _, None => true
  | _, _ => false
  end.

(** [contains sub s]: [sub] occurs in [s]. *)
Fixpoint contains (sub s : string) : bool :=
  String.prefix sub s ||
  match s with
  | EmptyString => false
  | String _ rest => contains sub rest
  end.

(** A computation is quiet when it yields nothing. *)
Definition quiet {A} (m : M A) : Prop := yields (trace m) = [].

(** An event other than a yield. *)
Definition silent (ev : event) : bool :=
  match ev with
  | Yield _ => false
  | _ => true
  end.

(** The envelope of the handler of the outer [try]. *)
Definition parse_error_envelope (e : exn) : json :=
  error_envelope JNull (-32700) ("Parse error: " ++ exn_text e).

(** The [AttributeError] of [v.get] on a value that is no dict. *)
Definition no_get (v : json) : exn :=
  AttributeError ("'" ++ type_name v ++ "' object has no attribute 'get'").

(** The result of [initialize]. *)
Definition initialize_result : json :=
  JDict [("protocolVersion", JStr "2024-11-05");
         ("capabilities", JDict [("tools", JDict [])]);
         ("serverInfo", JDict [("name", JStr "time-weather-mcp");
                               ("version", JStr "1.0.0")])].

(** The envelope that answers a [tools/call] whose handler ended in [o]. *)
Definition call_envelope (id : json) (o : outcome (list types.TextContent)) : json :=
  match o with
  | Return items => result_envelope id (content_result items)
  | Raise e => error_envelope id (-32000) (exn_text e)
  end.

(** A tool as [tools/list] shows it. *)
Definition tool_descriptor (tool : types.Tool) : json :=
  JDict [("name", JStr (types.name tool));
         ("description", JStr (types.description tool));
         ("inputSchema", types.inputSchema tool)].

(** On the [tools/call] route the [params] of the message is an object (or
    absent); on every other route and for a message that is no object
    nothing is asked. *)
Definition params_shape_ok (message : json) : bool :=
  match message with
  | JDict d =>
      if eq_str (lookup d "method" JNull) "tools/call"
      then is_dict (lookup d "params" (JDict []))
      else true
  | _ => true
  end.

(** The routing code itself raises on the message: [message.get] on a value
    that is no object, or [params.get] on a [params] that is no object. *)
Definition routing_raises (message : json) : bool :=
  negb (is_dict message) || negb (params_shape_ok message).

(** The value at the end of a path of keys. *)
Fixpoint at_path (v : json) (path : list string) : option json :=
  match path with
  | [] => Some v
  | key :: rest =>
      match field v key with
      | Some x => at_path x rest
      | None => None
      end
  end.

Definition keys (v : json) : list string :=
  match v with
  | JDict d => map fst d
  | _ => []
  end.

(** ** A sample world

    A clock, a time zone database with two zones, no API key and an
    unreachable network, and a decoder that knows the requests below.  The
    closed examples run the program in it. *)
Module Sample.

(** JSON text is written with ['] for the quotation mark. *)
Fixpoint json_text (s : string) : string :=
  match s with
  | EmptyString => EmptyString
  | String c rest =>
      String (if Ascii.eqb c "'" then "034"%char else c) (json_text rest)
  end.

Definition body (s : string) : list byte := list_byte_of_string (json_text s).

Definition requests : list (string * json) :=
  [ ("{'jsonrpc':'2.0','id':1,'method':'initialize','params':{'x':[1]}}",
     JDict [("jsonrpc", JStr "2.0"); ("id", JInt 1); ("method", JStr "initialize");
            ("params", JDict [("x", JList [JInt 1])])]);
    ("{'jsonrpc':'2.0','id':'a','method':'tools/list'}",
     JDict [("jsonrpc", JStr "2.0"); ("id", JStr "a"); ("method", JStr "tools/list")]);
    ("{'jsonrpc':'2.0','id':2,'method':'tools/call','params':{'name':'time_tool','arguments':{'input_timezone':'Not/AZone'}}}",
     JDict [("jsonrpc", JStr "2.0"); ("id", JInt 2); ("method", JStr "tools/call");
            ("params", JDict [("name", JStr "time_tool");
                              ("arguments", JDict [("input_timezone", JStr "Not/AZone")])])]);
    ("{'jsonrpc':'2.0','id':22,'method':'tools/call','params':{'name':'time_tool','arguments':{'input_timezone':''}}}",
     JDict [("jsonrpc", JStr "2.0"); ("id", JInt 22); ("method", JStr "tools/call");
            ("params", JDict [("name", JStr "time_tool");
                              ("arguments", JDict [("input_timezone", JStr EmptyString)])])]);
    ("{'jsonrpc':'2.0','id':3,'method':'tools/call','params':{'name':'weather_tool','arguments':{}}}",
     JDict [("jsonrpc", JStr "2.0"); ("id", JInt 3); ("method", JStr "tools/call");
            ("params", JDict [("name", JStr "weather_tool"); ("arguments", JDict [])])]);
    ("{'jsonrpc':'2.0','id':5,'method':'tools/call','params':{'name':'bogus_tool','arguments':{}}}",
     JDict [("jsonrpc", JStr "2.0"); ("id", JInt 5); ("method", JStr "tools/call");
            ("params", JDict [("name", JStr "bogus_tool"); ("arguments", JDict [])])]);
    ("{'jsonrpc':'2.0','id':6,'method':'tools/call'}",
     JDict [("jsonrpc", JStr "2.0"); ("id", JInt 6); ("method", JStr "tools/call")]);
    ("{'jsonrpc':'2.0','id':7,'method':'tools/call','params':['time_tool']}",
     JDict [("jsonrpc", JStr "2.0"); ("id", JInt 7); ("method", JStr "tools/call");
            ("params", JList [JStr "time_tool"])]);
    ("{'jsonrpc':'2.0','id':8,'method':'resources/list'}",
     JDict [("jsonrpc", JStr "2.0"); ("id", JInt 8); ("method", JStr "resources/list")]);
    ("[1, 2]", JList [JInt 1; JInt 2])
  ].

Fixpoint loads_from (table : list (string * json)) (s : string) : outcome json :=
  match table with
  | [] => Raise (mkExn "JSONDecodeError" false "Expecting value: line 1 column 1 (char 0)")
  | (t, v) :: rest => if String.eqb (json_text t) s then Return v else loads_from rest s
  end.

Definition zone (key : json) : outcome string :=
  match key with
  | JStr s =>
      if String.eqb s "Asia/Kolkata" || String.eqb s "UTC" then Return s
      else if String.eqb s EmptyString then
        Raise (ValueError "ZoneInfo keys must be normalized relative paths, got: ")
      else Raise (KeyError ("'No time zone found with key " ++ s ++ "'"))
  | _ => Raise (mkExn "TypeError" false "expected str, bytes or os.PathLike object")
  end.

Definition world : World := {|
  decode := fun b => Return (string_of_list_byte b);
  json_loads := loads_from requests;
  float_repr := fun _ => "0.0";
  str_repr := fun s => "'" ++ s ++ "'";
  now := mkDatetime 1700000000 None;
  ZoneInfo := zone;
  astimezone := fun d z => Return (mkDatetime (instant d) (Some z));
  strftime := fun d _ =>
    match tzinfo d with
    | None => Return "2023-11-14 22:13:20 "
    | Some z => Return ("2023-11-14 22:13:20 " ++ z)
    end;
  load_dotenv := Return false;
  getenv := fun _ => None;
  print := fun _ => Return tt;
  requests_get := fun _ => Raise (mkExn "ConnectionError" true "connection refused");
  subscript_TypeError := fun v =>
    mkExn "TypeError" false ("'" ++ type_name v ++ "' object is not subscriptable")
|}.

Definition initialize_request : list byte :=
  body "{'jsonrpc':'2.0','id':1,'method':'initialize','params':{'x':[1]}}".
Definition tools_list_request : list byte :=
  body "{'jsonrpc':'2.0','id':'a','method':'tools/list'}".
Definition bad_zone_request : list byte :=
  body "{'jsonrpc':'2.0','id':2,'method':'tools/call','params':{'name':'time_tool','arguments':{'input_timezone':'Not/AZone'}}}".
Definition empty_zone_request : list byte :=
  body "{'jsonrpc':'2.0','id':22,'method':'tools/call','params':{'name':'time_tool','arguments':{'input_timezone':''}}}".
Definition weather_no_location_request : list byte :=
  body "{'jsonrpc':'2.0','id':3,'method':'tools/call','params':{'name':'weather_tool','arguments':{}}}".
Definition bogus_tool_request : list byte :=
  body "{'jsonrpc':'2.0','id':5,'method':'tools/call','params':{'name':'bogus_tool','arguments':{}}}".
Definition no_params_request : list byte :=
  body "{'jsonrpc':'2.0','id':6,'method':'tools/call'}".
Definition list_params_request : list byte :=
  body "{'jsonrpc':'2.0','id':7,'method':'tools/call','params':['time_tool']}".
Definition unknown_method_request : list byte :=
  body "{'jsonrpc':'2.0','id':8,'method':'resources/list'}".
Definition array_request : list byte := body "[1, 2]".
Definition malformed_request : list byte := body "not json".

End Sample.

(** ** The HTTP handler and the stream transport *)

Module starlette.
(** A [starlette.requests.Request], by what [handle_stream] reads of it. *)
Record Request : Type := mkRequest {
  method : string;                       (* request.method *)
  body : outcome (list byte)             (* await request.body() *)
}.
(** A [StreamingResponse]: the iterator whose lines it sends (run when the
    response is sent), the media type, the status code (200 when none is
    given) and the headers given to it. *)
Record StreamingResponse : Type := mkStreamingResponse {
  content : M unit;
  media_type : string;
  status_code : Z;
  headers : list (string * string)
}.
End starlette.

Definition handle_stream (w : World) (request : starlette.Request)
  : M starlette.StreamingResponse :=
  if String.eqb (starlette.method request) "POST" then
    try_except
      (body <- lift (starlette.body request) ;;
       ret (starlette.mkStreamingResponse
              (stream_generator w body)
              "application/x-ndjson"
              200
              [("Cache-Control", "no-cache");
               ("Connection", "keep-alive");
               ("X-Accel-Buffering", "no")]))
      (fun e =>
         let error_response :=
           JDict [
             ("jsonrpc", JStr "2.0");
             ("id", JNull);
             ("error", JDict [
                ("code", JInt (-32000));
                ("message", JStr (exn_text e))
             ])
           ] in
         ret (starlette.mkStreamingResponse
                (emit (Yield error_response))
                "application/x-ndjson"
                500
                []))
  else
    (* Method not allowed *)
    let error_response :=
      JDict [
        ("jsonrpc", JStr "2.0");
        ("id", JNull);
        ("error", JDict [
           ("code", JInt (-32000));
           ("message", JStr "Method not allowed")
        ])
      ] in
    ret (starlette.mkStreamingResponse
           (emit (Yield error_response))
           "application/x-ndjson"
           405
           []).

(** The two streams of a [StreamableHttpTransport], each by what its methods
    return. *)
Record StreamReader : Type := mkStreamReader {
  readline : outcome (list byte)         (* await read_stream.readline() *)
}.

Record StreamWriter : Type := mkStreamWriter {
  write : json -> outcome unit;          (* write((json.dumps(m) + newline).encode()) *)
  drain : outcome unit                   (* await write_stream.drain() *)
}.

Record StreamableHttpTransport : Type := mkTransport {
  read_stream : option StreamReader;
  write_stream : option StreamWriter
}.

(** [StreamableHttpTransport.__init__] *)
Definition init_transport : StreamableHttpTransport := mkTransport None None.

(** [read_message]; [strip] is [str.strip].  The result is the value
    [json.loads] gave, or [None]: a line that holds the JSON null gives the
    same [None] as no message. *)
Definition read_message (w : World) (strip : string -> string)
    (self : StreamableHttpTransport) : M json :=
  step <- match read_stream self with
          | Some stream =>
              try_except
                (line <- lift (readline stream) ;;
                 match line with
                 | [] => ret (Normal tt)
                 | _ :: _ =>
                     decoded <- lift (decode w line) ;;
                     message <- lift (json_loads w (strip decoded)) ;;
                     ret (Returned message)
                 end)
                (fun _ => ret (Normal tt))
          | None => ret (Normal tt)
          end ;;
  match step with
  | Returned r => ret r
  | Normal _ => ret JNull
  end.

Definition write_message (self : StreamableHttpTransport) (message : json) : M unit :=
  match write_stream self with
  | Some stream =>
      try_except
        (lift (write stream message) ;;
         lift (drain stream))
        (fun _ => ret tt)
  | None => ret tt
  end.

(** ** More vocabulary *)

(** The three error codes of the protocol. *)
Definition known_code (code : Z) : bool :=
  (code =? -32700) || (code =? -32601) || (code =? -32000).

(** A response envelope as it goes on the wire: the version, the id, and
    either a result or an error made of one of the three codes and a
    message. *)
Definition is_envelope (v : json) : bool :=
  match v with
  | JDict [(k1, JStr version); (k2, _); (k3, payload)] =>
      String.eqb k1 "jsonrpc" && String.eqb version "2.0" && String.eqb k2 "id" &&
      (String.eqb k3 "result" ||
       (String.eqb k3 "error" &&
        match payload with
        | JDict [(c, JInt code); (m, JStr _)] =>
            String.eqb c "code" && String.eqb m "message" && known_code code
        | _ => false
        end))
  | _ => false
  end.

(** The tools the registry lists. *)
Definition listed_tools : list types.Tool :=
  match returned list_tools with
  | Return tools => tools
  | Raise _ => []
  end.

Definition is_http (ev : event) : bool :=
  match ev with
  | HttpGet _ => true
  | _ => false
  end.

(** An event that reaches outside the process: clock, zone database,
    environment, standard output, network. *)
Definition is_outside (ev : event) : bool :=
  match ev with
  | Yield _ | ListTools | CallTool _ _ => false
  | _ => true
  end.

(** [m] does nothing that [p] picks out. *)
Definition avoids {A} (p : event -> bool) (m : M A) : Prop :=
  existsb p (trace m) = false.

(** The URL [weather_tool] requests for a key and a location. *)
Definition weather_url (w : World) (api_key : string) (location : json) : string :=
  "http://api.weatherapi.com/v1/current.json?key=" ++ api_key
  ++ "&q=" ++ py_str w location ++ "&aqi=no".

Definition weather_key_missing : string :=
  "Weather API key not found. Please set WEATHER_API_KEY environment variable.".

(** ** A sample world with a key and a network *)
Module Online.

Definition paris : json :=
  JDict [("location", JDict [("name", JStr "Paris")]);
         ("current", JDict [("temp_c", JInt 21);
                            ("condition", JDict [("text", JStr "Sunny")])])].

Definition http_get (url : string) : outcome Response :=
  if String.eqb url "http://api.weatherapi.com/v1/current.json?key=KEY&q=Paris&aqi=no"
  then Return (mkResponse (Return tt) (Return paris))
  else if String.eqb url "http://api.weatherapi.com/v1/current.json?key=KEY&q=Atlantis&aqi=no"
  then Return (mkResponse (Return tt) (Return (JDict [("location", JNull)])))
  else if String.eqb url "http://api.weatherapi.com/v1/current.json?key=KEY&q=Oslo&aqi=no"
  then Return (mkResponse (Return tt)
                 (Return (JDict [("current", JDict [("temp_c", JInt 3)])])))
  else if String.eqb url "http://api.weatherapi.com/v1/current.json?key=KEY&q=Nowhere&aqi=no"
  then Return (mkResponse
                 (Raise (mkExn "HTTPError" true "400 Client Error: Bad Request"))
                 (Return JNull))
  else Raise (mkExn "ConnectionError" true "connection refused").

Definition requests : list (string * json) :=
  [ ("{'jsonrpc':'2.0','id':9,'method':'tools/call','params':{'name':'time_tool','arguments':null}}",
     JDict [("jsonrpc", JStr "2.0"); ("id", JInt 9); ("method", JStr "tools/call");
            ("params", JDict [("name", JStr "time_tool"); ("arguments", JNull)])]);
    ("{'jsonrpc':'2.0','id':10,'method':'tools/call','params':{'name':'weather_tool','arguments':{'location':'Paris'}}}",
     JDict [("jsonrpc", JStr "2.0"); ("id", JInt 10); ("method", JStr "tools/call");
            ("params", JDict [("name", JStr "weather_tool");
                              ("arguments", JDict [("location", JStr "Paris")])])]);
    ("{'jsonrpc':'2.0','id':11,'method':'tools/call','params':null}",
     JDict [("jsonrpc", JStr "2.0"); ("id", JInt 11); ("method", JStr "tools/call");
            ("params", JNull)]);
    ("{'jsonrpc':'2.0','id':12,'method':'tools/call','params':{'name':'weather_tool','arguments':null}}",
     JDict [("jsonrpc", JStr "2.0"); ("id", JInt 12); ("method", JStr "tools/call");
            ("params", JDict [("name", JStr "weather_tool"); ("arguments", JNull)])])
  ].

Definition world : World := {|
  decode := decode Sample.world;
  json_loads := Sample.loads_from (requests ++ Sample.requests);
  float_repr := float_repr Sample.world;
  str_repr := str_repr Sample.world;
  now := now Sample.world;
  ZoneInfo := ZoneInfo Sample.world;
  astimezone := astimezone Sample.world;
  strftime := strftime Sample.world;
  load_dotenv := Return true;
  getenv := fun var => if String.eqb var "WEATHER_API_KEY" then Some "KEY" else None;
  print := fun _ => Return tt;
  requests_get := http_get;
  subscript_TypeError := subscript_TypeError Sample.world
|}.

Definition null_arguments_request : list byte :=
  Sample.body "{'jsonrpc':'2.0','id':9,'method':'tools/call','params':{'name':'time_tool','arguments':null}}".
Definition paris_request : list byte :=
  Sample.body "{'jsonrpc':'2.0','id':10,'method':'tools/call','params':{'name':'weather_tool','arguments':{'location':'Paris'}}}".

Definition null_params_request : list byte :=
  Sample.body "{'jsonrpc':'2.0','id':11,'method':'tools/call','params':null}".
Definition weather_null_arguments_request : list byte :=
  Sample.body "{'jsonrpc':'2.0','id':12,'method':'tools/call','params':{'name':'weather_tool','arguments':null}}".

End Online.

(** * Properties *)

(** ** The monad *)

Lemma yields_app (t1 t2 : list event) :
  yields (t1 ++ t2)%list = (yields t1 ++ yields t2)%list.
Proof.
  induction t1 as [|ev t1 IH]; simpl; [reflexivity|].
  destruct ev; simpl; rewrite ?IH; reflexivity.
Qed.

Lemma bind_lift_Return {A B} (a : A) (f : A -> M B) : bind (lift (Return a)) f = f a.
Proof. unfold bind, lift. destruct (f a); reflexivity. Qed.

Lemma bind_lift_Raise {A B} (e : exn) (f : A -> M B) : bind (lift (Raise e)) f = raise e.
Proof. reflexivity. Qed.

Lemma bind_ret {A B} (a : A) (f : A -> M B) : bind (ret a) f = f a.
Proof. apply (bind_lift_Return a f). Qed.

Lemma bind_raise {A B} (e : exn) (f : A -> M B) : bind (raise e) f = raise e.
Proof. reflexivity. Qed.

Lemma trace_bind {A B} (m : M A) (f : A -> M B) :
  trace (bind m f) =
  (trace m ++ match returned m with
              | Return a => trace (f a)
              | Raise _ => []
              end)%list.
Proof.
  destruct m as [t [a|e]]; unfold bind, trace, returned; simpl.
  - destruct (f a); reflexivity.
  - rewrite app_nil_r. reflexivity.
Qed.

Lemma returned_bind {A B} (m : M A) (f : A -> M B) :
  returned (bind m f) =
  match returned m with
  | Return a => returned (f a)
  | Raise e => Raise e
  end.
Proof.
  destruct m as [t [a|e]]; unfold bind, returned; simpl; [|reflexivity].
  destruct (f a); reflexivity.
Qed.

Lemma trace_try_except {A} (m : M A) (h : exn -> M A) :
  trace (try_except m h) =
  (trace m ++ match returned m with
              | Return _ => []
              | Raise e => trace (h e)
              end)%list.
Proof.
  destruct m as [t [a|e]]; unfold try_except, trace, returned; simpl.
  - rewrite app_nil_r. reflexivity.
  - destruct (h e); reflexivity.
Qed.

Lemma returned_try_except {A} (m : M A) (h : exn -> M A) :
  returned (try_except m h) =
  match returned m with
  | Return a => Return a
  | Raise e => returned (h e)
  end.
Proof.
  destruct m as [t [a|e]]; unfold try_except, returned; simpl; [reflexivity|].
  destruct (h e); reflexivity.
Qed.

Lemma quiet_ret {A} (a : A) : quiet (ret a).
Proof. reflexivity. Qed.

Lemma quiet_raise {A} (e : exn) : quiet (@raise A e).
Proof. reflexivity. Qed.

Lemma quiet_lift {A} (o : outcome A) : quiet (lift o).
Proof. reflexivity. Qed.

Lemma quiet_emit (ev : event) : silent ev = true -> quiet (emit ev).
Proof. destruct ev; simpl; intros H; try discriminate; reflexivity. Qed.

Lemma quiet_bind {A B} (m : M A) (f : A -> M B) :
  quiet m -> (forall a, quiet (f a)) -> quiet (bind m f).
Proof.
  unfold quiet. intros Hm Hf. rewrite trace_bind, yields_app, Hm.
  destruct (returned m); simpl; [apply Hf | reflexivity].
Qed.

Lemma quiet_try_except {A} (m : M A) (h : exn -> M A) :
  quiet m -> (forall e, quiet (h e)) -> quiet (try_except m h).
Proof.
  unfold quiet. intros Hm Hh. rewrite trace_try_except, yields_app, Hm.
  destruct (returned m); simpl; [reflexivity | apply Hh].
Qed.

Lemma quiet_if {A} (b : bool) (m1 m2 : M A) :
  quiet m1 -> quiet m2 -> quiet (if b then m1 else m2).
Proof. destruct b; auto. Qed.

Create HintDb quiet.
#[local] Hint Resolve quiet_ret quiet_raise quiet_lift quiet_bind quiet_try_except
  quiet_if : quiet.
#[local] Hint Extern 1 (quiet (emit _)) => (apply quiet_emit; reflexivity) : quiet.

(** ** The tools yield nothing and [time_tool] always returns *)

Lemma time_tool_quiet (w : World) (input_timezone : json) :
  quiet (time_tool w input_timezone).
Proof.
  unfold time_tool. apply quiet_try_except; [|auto with quiet].
  apply quiet_bind; [auto with quiet|]. intros _.
  apply quiet_bind.
  - apply quiet_if; auto 10 with quiet.
  - intros [converted|r]; auto with quiet.
Qed.

Lemma weather_tool_quiet (w : World) (location : json) :
  quiet (weather_tool w location).
Proof.
  unfold weather_tool, try_except2.
  apply quiet_if; [auto with quiet|].
  apply quiet_try_except; [|intros e; apply quiet_if; auto with quiet].
  do 3 (apply quiet_bind; [auto with quiet|]; intros _).
  destruct (getenv w "WEATHER_API_KEY") as [api_key|]; [|auto with quiet].
  apply quiet_if; [auto with quiet|].
  do 3 (apply quiet_bind; [auto with quiet|]; intros _).
  apply quiet_bind; [auto with quiet|]; intros resp.
  apply quiet_bind; [auto with quiet|]; intros _.
  apply quiet_bind; [auto with quiet|]; intros body.
  apply quiet_bind; [auto with quiet|]; intros data.
  apply quiet_if; auto 10 with quiet.
Qed.

Lemma call_tool_quiet (w : World) (name arguments : json) :
  quiet (call_tool w name arguments).
Proof.
  unfold call_tool.
  apply quiet_bind; [auto with quiet|]; intros _.
  repeat apply quiet_if; auto with quiet.
  - apply quiet_bind; [auto with quiet|]. intros tz. apply time_tool_quiet.
  - apply quiet_bind; [auto with quiet|]. intros l. apply weather_tool_quiet.
Qed.

(** ** One lemma per route of [stream_generator] *)

Lemma eq_str_true (v : json) (s : string) : eq_str v s = true -> v = JStr s.
Proof.
  destruct v; simpl; try discriminate.
  intros H. apply String.eqb_eq in H. now subst.
Qed.

Lemma lookup_some (d : list (string * json)) (key : string) (default v : json) :
  dict_get d key = Some v -> lookup d key default = v.
Proof. unfold lookup. now intros ->. Qed.

Lemma lookup_none (d : list (string * json)) (key : string) (default : json) :
  dict_get d key = None -> lookup d key default = default.
Proof. unfold lookup. now intros ->. Qed.

Lemma get_not_dict (v : json) (key : string) (default : json) :
  is_dict v = false -> get v key default = Raise (no_get v).
Proof. destruct v; simpl; intros H; try discriminate; reflexivity. Qed.

Section Routes.

Variable w : World.
Variable request_body : list byte.

Lemma run_parse_failure (e : exn) :
  parse w request_body = Raise e ->
  stream_generator w request_body = ([Yield (parse_error_envelope e)], Return tt).
Proof.
  unfold parse, stream_generator. intros H.
  destruct (decode w request_body) as [decoded|e'].
  - rewrite bind_lift_Return, H. reflexivity.
  - inversion H; subst. reflexivity.
Qed.

Lemma run_decoded (message : json) :
  parse w request_body = Return message ->
  exists decoded, decode w request_body = Return decoded
                  /\ json_loads w decoded = Return message.
Proof.
  unfold parse. destruct (decode w request_body) as [decoded|e]; [|discriminate].
  intros H. now exists decoded.
Qed.

Lemma run_not_object (message : json) :
  parse w request_body = Return message ->
  is_dict message = false ->
  stream_generator w request_body = ([Yield (parse_error_envelope (no_get message))], Return tt).
Proof.
  intros H Hd. destruct (run_decoded _ H) as (decoded & D & L).
  unfold stream_generator. rewrite D, bind_lift_Return, L, bind_lift_Return.
  rewrite (get_not_dict _ _ _ Hd). reflexivity.
Qed.

Lemma run_initialize (d : list (string * json)) :
  parse w request_body = Return (JDict d) ->
  eq_str (lookup d "method" JNull) "initialize" = true ->
  stream_generator w request_body =
  ([Yield (result_envelope (lookup d "id" JNull) initialize_result)], Return tt).
Proof.
  intros H Hm. destruct (run_decoded _ H) as (decoded & D & L).
  unfold stream_generator. rewrite D, bind_lift_Return, L, bind_lift_Return.
  cbn [get]. rewrite bind_lift_Return, Hm, bind_lift_Return. reflexivity.
Qed.

Lemma run_tools_list (d : list (string * json)) :
  parse w request_body = Return (JDict d) ->
  eq_str (lookup d "method" JNull) "tools/list" = true ->
  stream_generator w request_body =
  (trace list_tools ++
     [Yield (result_envelope (lookup d "id" JNull)
               (JDict [("tools",
                        JList match returned list_tools with
                              | Return tools => map tool_descriptor tools
                              | Raise _ => []
                              end)]))],
   Return tt)%list.
Proof.
  intros H Hm. destruct (run_decoded _ H) as (decoded & D & L).
  unfold stream_generator. rewrite D, bind_lift_Return, L, bind_lift_Return.
  cbn [get]. rewrite bind_lift_Return.
  rewrite (eq_str_true _ _ Hm). cbn [eq_str String.eqb Ascii.eqb Bool.eqb].
  rewrite bind_lift_Return. reflexivity.
Qed.

Lemma run_unknown_method (d : list (string * json)) :
  parse w request_body = Return (JDict d) ->
  eq_str (lookup d "method" JNull) "initialize" = false ->
  eq_str (lookup d "method" JNull) "tools/list" = false ->
  eq_str (lookup d "method" JNull) "tools/call" = false ->
  stream_generator w request_body =
  ([Yield (error_envelope (lookup d "id" JNull) (-32601)
             ("Method not found: " ++ py_str w (lookup d "method" JNull)))],
   Return tt).
Proof.
  intros H H1 H2 H3. destruct (run_decoded _ H) as (decoded & D & L).
  unfold stream_generator. rewrite D, bind_lift_Return, L, bind_lift_Return.
  cbn [get]. rewrite ?bind_lift_Return, H1, ?bind_lift_Return, H2, ?bind_lift_Return, H3.
  rewrite ?bind_lift_Return. reflexivity.
Qed.

Lemma run_call_bad_params (d : list (string * json)) :
  parse w request_body = Return (JDict d) ->
  eq_str (lookup d "method" JNull) "tools/call" = true ->
  is_dict (lookup d "params" (JDict [])) = false ->
  stream_generator w request_body =
  ([Yield (parse_error_envelope (no_get (lookup d "params" (JDict []))))], Return tt).
Proof.
  intros H Hm Hp. destruct (run_decoded _ H) as (decoded & D & L).
  unfold stream_generator. rewrite D, bind_lift_Return, L, bind_lift_Return.
  cbn [get]. rewrite bind_lift_Return.
  rewrite (eq_str_true _ _ Hm). cbn [eq_str String.eqb Ascii.eqb Bool.eqb].
  rewrite ?bind_lift_Return. cbn [eq_str String.eqb Ascii.eqb Bool.eqb].
  rewrite ?bind_lift_Return.
  rewrite (get_not_dict _ _ _ Hp). reflexivity.
Qed.

Lemma run_call (d p : list (string * json)) :
  parse w request_body = Return (JDict d) ->
  eq_str (lookup d "method" JNull) "tools/call" = true ->
  lookup d "params" (JDict []) = JDict p ->
  emitted w request_body =
    [call_envelope (lookup d "id" JNull)
       (returned (call_tool w (lookup p "name" JNull) (lookup p "arguments" (JDict []))))]
  /\ returned (stream_generator w request_body) = Return tt.
Proof.
  intros H Hm Hp. destruct (run_decoded _ H) as (decoded & D & L).
  unfold emitted, stream_generator. rewrite D, bind_lift_Return, L, bind_lift_Return.
  cbn [get]. rewrite bind_lift_Return.
  rewrite (eq_str_true _ _ Hm). cbn [eq_str String.eqb Ascii.eqb Bool.eqb].
  rewrite ?bind_lift_Return. cbn [eq_str String.eqb Ascii.eqb Bool.eqb].
  rewrite ?bind_lift_Return, Hp. cbn [get]. rewrite ?bind_lift_Return.
  set (call := call_tool w _ _).
  pose proof (call_tool_quiet w (lookup p "name" JNull) (lookup p "arguments" (JDict []))) as Q.
  fold call in Q. unfold quiet in Q.
  rewrite ?trace_try_except, ?returned_try_except, ?trace_bind, ?returned_bind, ?yields_app.
  rewrite Q.
  destruct (returned call) as [items|e]; rewrite ?bind_lift_Return; split; reflexivity.
Qed.

End Routes.

(** ** What the tools return *)

Lemma call_tool_unknown (w : World) (name arguments : json) :
  eq_str name "time_tool" = false ->
  eq_str name "weather_tool" = false ->
  returned (call_tool w name arguments) =
  Raise (ValueError ("Unknown tool: " ++ py_str w name)).
Proof. unfold call_tool. intros -> ->. reflexivity. Qed.

Lemma call_tool_time (w : World) (a : list (string * json)) :
  returned (call_tool w (JStr "time_tool") (JDict a)) =
  returned (time_tool w (lookup a "input_timezone" JNull)).
Proof.
  unfold call_tool. rewrite returned_bind. cbn [emit returned snd eq_str String.eqb Ascii.eqb Bool.eqb get].
  rewrite bind_lift_Return. reflexivity.
Qed.

Lemma call_tool_weather (w : World) (a : list (string * json)) :
  returned (call_tool w (JStr "weather_tool") (JDict a)) =
  returned (weather_tool w (lookup a "location" JNull)).
Proof.
  unfold call_tool. rewrite returned_bind. cbn [emit returned snd eq_str String.eqb Ascii.eqb Bool.eqb get].
  rewrite bind_lift_Return. reflexivity.
Qed.

Lemma time_tool_invalid (w : World) (input_timezone : json) (e : exn) :
  truthy input_timezone = true ->
  ZoneInfo w input_timezone = Raise e ->
  returned (time_tool w input_timezone) =
  Return [text_content ("Invalid timezone '" ++ py_str w input_timezone
                        ++ "'. Error: " ++ exn_text e)].
Proof.
  unfold time_tool. intros -> Hz. rewrite Hz. reflexivity.
Qed.

Lemma time_tool_returns (w : World) (input_timezone : json) :
  exists item, returned (time_tool w input_timezone) = Return [item].
Proof.
  unfold time_tool, returned, try_except, bind, lift, ret, emit.
  destruct (truthy input_timezone); simpl;
    repeat match goal with
           | |- context [match ?o with Return _ => _ | Raise _ => _ end] =>
               destruct o; simpl
           end;
    eexists; reflexivity.
Qed.

Lemma weather_tool_no_location (w : World) (location : json) :
  truthy location = false ->
  weather_tool w location = ([], Return [text_content "Location parameter is required."]).
Proof. unfold weather_tool. intros ->. reflexivity. Qed.

(** ** Strings *)

Lemma prefix_app (p s : string) : String.prefix p (p ++ s) = true.
Proof.
  induction p as [|c p IH]; simpl; [destruct s; reflexivity|].
  destruct (ascii_dec c c); [exact IH | contradiction].
Qed.

Lemma append_assoc (a b c : string) : (a ++ b) ++ c = a ++ b ++ c.
Proof. induction a as [|x a IH]; simpl; [reflexivity | now rewrite IH]. Qed.

Lemma contains_app (pre sub : string) : contains sub (pre ++ sub) = true.
Proof.
  induction pre as [|c pre IH]; simpl.
  - assert (H : String.prefix sub sub = true).
    { replace sub with (sub ++ EmptyString) at 2; [apply prefix_app|].
      induction sub; simpl; congruence. }
    destruct sub; simpl in *; [reflexivity|]. rewrite H. reflexivity.
  - rewrite IH. apply orb_true_r.
Qed.

Lemma request_id_not_object (message : json) :
  is_dict message = false -> request_id message = JNull.
Proof. destruct message; simpl; intros H; try discriminate; reflexivity. Qed.

Lemma response_id_call_envelope (id : json) (o : outcome (list types.TextContent)) :
  response_id (call_envelope id o) = Some id.
Proof. destruct o; reflexivity. Qed.

Lemma error_code_call_envelope (id : json) (o : outcome (list types.TextContent)) :
  error_code (call_envelope id o) <> Some (JInt (-32700)).
Proof. destruct o; simpl; discriminate. Qed.

Lemma emitted_run (w : World) (request_body : list byte) (t : list event) (o : outcome unit) :
  stream_generator w request_body = (t, o) -> emitted w request_body = yields t.
Proof. unfold emitted. now intros ->. Qed.

(** Every decoded message is answered by one of six envelopes. *)
Lemma emitted_cases (w : World) (request_body : list byte) (message : json) :
  parse w request_body = Return message ->
  (is_dict message = false /\
   emitted w request_body = [parse_error_envelope (no_get message)])
  \/ exists d, message = JDict d /\
       ((eq_str (lookup d "method" JNull) "tools/call" = true /\
         is_dict (lookup d "params" (JDict [])) = false /\
         emitted w request_body =
           [parse_error_envelope (no_get (lookup d "params" (JDict [])))])
        \/ (params_shape_ok message = true /\
            exists envelope, emitted w request_body = [envelope]
              /\ response_id envelope = Some (lookup d "id" JNull)
              /\ error_code envelope <> Some (JInt (-32700)))).
Proof.
  intros H. destruct (is_dict message) eqn:Hd.
  2:{ left. split; [reflexivity|].
      apply (emitted_run _ _ _ _ (run_not_object w request_body message H Hd)). }
  right. destruct message as [| | | | | |d]; try discriminate. exists d. split; [reflexivity|].
  unfold params_shape_ok.
  destruct (eq_str (lookup d "method" JNull) "tools/call") eqn:Hc.
  - destruct (lookup d "params" (JDict [])) as [| | | | | |p] eqn:Hp;
      try (left; split; [reflexivity|]; split; [reflexivity|];
           rewrite <- Hp;
           apply (emitted_run _ _ _ _ (run_call_bad_params w request_body d H Hc
                                         ltac:(rewrite Hp; reflexivity)))).
    right. split; [reflexivity|].
    destruct (run_call w request_body d p H Hc Hp) as [E _].
    eexists. split; [exact E|]. split.
    + apply response_id_call_envelope.
    + apply error_code_call_envelope.
  - right. split; [reflexivity|].
    destruct (eq_str (lookup d "method" JNull) "initialize") eqn:Hi.
    { eexists. split; [apply (emitted_run _ _ _ _ (run_initialize w request_body d H Hi))|].
      split; [reflexivity | simpl; discriminate]. }
    destruct (eq_str (lookup d "method" JNull) "tools/list") eqn:Hl.
    { eexists. split; [apply (emitted_run _ _ _ _ (run_tools_list w request_body d H Hl))|].
      split; [reflexivity | simpl; discriminate]. }
    eexists. split; [apply (emitted_run _ _ _ _ (run_unknown_method w request_body d H Hi Hl Hc))|].
    split; [reflexivity | simpl; discriminate].
Qed.

(** * The claims *)

(** C1 (as amended).  Every request body that decodes to a structured message
    is answered by exactly one envelope; the envelope's [id] is the
    request's [id] (null when the request has no [id] field) on every route,
    provided that on the [tools/call] route [params] is an object or absent. *)
Theorem one_envelope_with_request_id
    (w : World) (request_body : list byte) (message : json) :
  parse w request_body = Return message ->
  exists envelope,
    emitted w request_body = [envelope] /\
    (params_shape_ok message = true ->
     response_id envelope = Some (request_id message)).
Proof.
  intros H.
  destruct (emitted_cases w request_body message H)
    as [[Hd E] | (d & -> & [(Hc & Hp & E) | (Hs & envelope & E & Hid & _)])].
  - eexists. split; [exact E|]. intros _.
    rewrite (request_id_not_object _ Hd). reflexivity.
  - eexists. split; [exact E|]. unfold params_shape_ok. rewrite Hc, Hp. discriminate.
  - exists envelope. split; [exact E|]. intros _. exact Hid.
Qed.

Lemma one_envelope_with_request_id_witness :
  exists envelope,
    emitted Sample.world Sample.tools_list_request = [envelope] /\
    (params_shape_ok
       (JDict [("jsonrpc", JStr "2.0"); ("id", JStr "a"); ("method", JStr "tools/list")]) = true ->
     response_id envelope =
     Some (request_id
             (JDict [("jsonrpc", JStr "2.0"); ("id", JStr "a"); ("method", JStr "tools/list")]))).
Proof.
  exact (one_envelope_with_request_id Sample.world Sample.tools_list_request _ eq_refl).
Defined.

(** C1, as stated, fails: a [tools/call] request with id 7 whose [params] is
    a list is answered by the parse-error envelope, whose [id] is null. *)
Lemma list_params_loses_id :
  parse Sample.world Sample.list_params_request =
    Return (JDict [("jsonrpc", JStr "2.0"); ("id", JInt 7); ("method", JStr "tools/call");
                   ("params", JList [JStr "time_tool"])])
  /\ request_id (JDict [("jsonrpc", JStr "2.0"); ("id", JInt 7); ("method", JStr "tools/call");
                        ("params", JList [JStr "time_tool"])]) = JInt 7
  /\ emitted Sample.world Sample.list_params_request =
       [error_envelope JNull (-32700) "Parse error: 'list' object has no attribute 'get'"]
  /\ response_id
       (error_envelope JNull (-32700) "Parse error: 'list' object has no attribute 'get'")
     <> Some (JInt 7).
Proof. repeat split; try reflexivity. discriminate. Qed.

(** C2 (as amended).  A body that fails to parse is answered by exactly one
    Error envelope with [id] null, code -32700 and a message that begins
    with the words Parse error; and an envelope with code -32700 comes only
    from that handler: it is the parse-error envelope, and either the body
    failed to parse or the routing code itself raised on the decoded message
    (the message is no object, or it is a [tools/call] whose [params] is no
    object).  No route of a message on which routing does not raise
    produces it. *)
Theorem parse_error_envelope_origin (w : World) (request_body : list byte) :
  (forall e, parse w request_body = Raise e ->
     emitted w request_body =
       [error_envelope JNull (-32700) ("Parse error: " ++ exn_text e)])
  /\
  (forall envelope,
     In envelope (emitted w request_body) ->
     error_code envelope = Some (JInt (-32700)) ->
     exists e,
       envelope = error_envelope JNull (-32700) ("Parse error: " ++ exn_text e)
       /\ (parse w request_body = Raise e
           \/ exists message, parse w request_body = Return message
                              /\ routing_raises message = true)).
Proof.
  split.
  - intros e H. apply (emitted_run _ _ _ _ (run_parse_failure w request_body e H)).
  - intros envelope Hin Hcode.
    destruct (parse w request_body) as [message|e] eqn:H.
    + destruct (emitted_cases w request_body message H)
        as [[Hd E] | (d & -> & [(Hc & Hp & E) | (Hs & envelope' & E & _ & Hne)])];
        rewrite E in Hin; destruct Hin as [<-|[]].
      * eexists. split; [reflexivity|]. right. eexists. split; [reflexivity|].
        unfold routing_raises. rewrite Hd. reflexivity.
      * eexists. split; [reflexivity|]. right. eexists. split; [reflexivity|].
        unfold routing_raises, params_shape_ok. rewrite Hc, Hp. reflexivity.
      * contradiction.
    + rewrite (emitted_run _ _ _ _ (run_parse_failure w request_body e H)) in Hin.
      destruct Hin as [<-|[]]. exists e. split; [reflexivity|]. left. reflexivity.
Qed.

Lemma parse_error_envelope_origin_witness :
  emitted Sample.world Sample.malformed_request =
    [error_envelope JNull (-32700)
       "Parse error: Expecting value: line 1 column 1 (char 0)"]
  /\
  exists e,
    error_envelope JNull (-32700) "Parse error: Expecting value: line 1 column 1 (char 0)"
    = error_envelope JNull (-32700) ("Parse error: " ++ exn_text e)
    /\ (parse Sample.world Sample.malformed_request = Raise e
        \/ exists message, parse Sample.world Sample.malformed_request = Return message
                           /\ routing_raises message = true).
Proof.
  split.
  - exact (proj1 (parse_error_envelope_origin Sample.world Sample.malformed_request)
             _ eq_refl).
  - exact (proj2 (parse_error_envelope_origin Sample.world Sample.malformed_request)
             _ (or_introl eq_refl) eq_refl).
Defined.

(** C2, as stated, fails in its second half: the body [[1, 2]] parses, and is
    answered with code -32700. *)
Lemma array_body_parse_error :
  parse Sample.world Sample.array_request = Return (JList [JInt 1; JInt 2])
  /\ emitted Sample.world Sample.array_request =
       [error_envelope JNull (-32700) "Parse error: 'list' object has no attribute 'get'"]
  /\ error_code
       (error_envelope JNull (-32700) "Parse error: 'list' object has no attribute 'get'")
     = Some (JInt (-32700)).
Proof. repeat split; reflexivity. Qed.

(** What the hypotheses of the claims below give the route lemmas. *)
Lemma method_is (d : list (string * json)) (m : string) :
  dict_get d "method" = Some (JStr m) ->
  eq_str (lookup d "method" JNull) m = true.
Proof. intros H. rewrite (lookup_some _ _ _ _ H). simpl. apply String.eqb_refl. Qed.

(** C3.  A [tools/call] request whose [params.name] is neither [time_tool]
    nor [weather_tool] is answered by one Error envelope with the request's
    [id], code -32000 and the message Unknown tool: followed by the name, so
    the message contains the name. *)
Theorem unknown_tool_error
    (w : World) (request_body : list byte) (d p : list (string * json)) (name : json) :
  parse w request_body = Return (JDict d) ->
  dict_get d "method" = Some (JStr "tools/call") ->
  dict_get d "params" = Some (JDict p) ->
  dict_get p "name" = Some name ->
  eq_str name "time_tool" = false ->
  eq_str name "weather_tool" = false ->
  emitted w request_body =
    [error_envelope (request_id (JDict d)) (-32000) ("Unknown tool: " ++ py_str w name)]
  /\ contains (py_str w name) ("Unknown tool: " ++ py_str w name) = true.
Proof.
  intros H Hm Hp Hn Ht Hw. split; [|apply contains_app].
  destruct (run_call w request_body d p H (method_is _ _ Hm) (lookup_some _ _ _ _ Hp)) as [E _].
  rewrite E, (lookup_some _ _ _ _ Hn), (call_tool_unknown _ _ _ Ht Hw). reflexivity.
Qed.

Lemma unknown_tool_error_witness :
  emitted Sample.world Sample.bogus_tool_request =
    [error_envelope (JInt 5) (-32000) "Unknown tool: bogus_tool"]
  /\ contains "bogus_tool" "Unknown tool: bogus_tool" = true.
Proof.
  exact (unknown_tool_error Sample.world Sample.bogus_tool_request _ _ (JStr "bogus_tool")
           eq_refl eq_refl eq_refl eq_refl eq_refl eq_refl).
Defined.

(** C4.  A request whose [method] is none of [initialize], [tools/list] and
    [tools/call] is answered by one Error envelope with the request's [id],
    code -32601 and the message Method not found: followed by the method, so
    the message contains the method. *)
Theorem unknown_method_error
    (w : World) (request_body : list byte) (d : list (string * json)) :
  parse w request_body = Return (JDict d) ->
  eq_str (lookup d "method" JNull) "initialize" = false ->
  eq_str (lookup d "method" JNull) "tools/list" = false ->
  eq_str (lookup d "method" JNull) "tools/call" = false ->
  emitted w request_body =
    [error_envelope (request_id (JDict d)) (-32601)
       ("Method not found: " ++ py_str w (lookup d "method" JNull))]
  /\ contains (py_str w (lookup d "method" JNull))
       ("Method not found: " ++ py_str w (lookup d "method" JNull)) = true.
Proof.
  intros H H1 H2 H3. split; [|apply contains_app].
  apply (emitted_run _ _ _ _ (run_unknown_method w request_body d H H1 H2 H3)).
Qed.

Lemma unknown_method_error_witness :
  emitted Sample.world Sample.unknown_method_request =
    [error_envelope (JInt 8) (-32601) "Method not found: resources/list"]
  /\ contains "resources/list" "Method not found: resources/list" = true.
Proof.
  exact (unknown_method_error Sample.world Sample.unknown_method_request _
           eq_refl eq_refl eq_refl eq_refl).
Defined.

(** C5.  A request with method [initialize] is answered, whatever its
    [params], by the Result envelope with the request's [id] and the fixed
    result; the run does nothing else: its trace is that one yield, with no
    call into the registry and no call to the outside. *)
Theorem initialize_response
    (w : World) (request_body : list byte) (d : list (string * json)) :
  parse w request_body = Return (JDict d) ->
  dict_get d "method" = Some (JStr "initialize") ->
  stream_generator w request_body =
    ([Yield (result_envelope (request_id (JDict d))
               (JDict [("protocolVersion", JStr "2024-11-05");
                       ("capabilities", JDict [("tools", JDict [])]);
                       ("serverInfo", JDict [("name", JStr "time-weather-mcp");
                                             ("version", JStr "1.0.0")])]))],
     Return tt).
Proof.
  intros H Hm. apply (run_initialize w request_body d H (method_is _ _ Hm)).
Qed.

Lemma initialize_response_witness :
  stream_generator Sample.world Sample.initialize_request =
    ([Yield (result_envelope (JInt 1)
               (JDict [("protocolVersion", JStr "2024-11-05");
                       ("capabilities", JDict [("tools", JDict [])]);
                       ("serverInfo", JDict [("name", JStr "time-weather-mcp");
                                             ("version", JStr "1.0.0")])]))],
     Return tt).
Proof.
  exact (initialize_response Sample.world Sample.initialize_request _ eq_refl eq_refl).
Defined.

(** C6.  A request with method [tools/list] is answered by the Result
    envelope whose [result.tools] is the registry's list projected to
    name, description and inputSchema: exactly two descriptors, [time_tool]
    then [weather_tool]; [input_timezone] is a string property of the first
    and is not required, [location] is a string property of the second and
    is required. *)
Theorem tools_list_response
    (w : World) (request_body : list byte) (d : list (string * json)) :
  parse w request_body = Return (JDict d) ->
  dict_get d "method" = Some (JStr "tools/list") ->
  exists first second : types.Tool,
    returned list_tools = Return [first; second]
    /\ emitted w request_body =
         [result_envelope (request_id (JDict d))
            (JDict [("tools", JList [tool_descriptor first; tool_descriptor second])])]
    /\ keys (tool_descriptor first) = ["name"; "description"; "inputSchema"]
    /\ keys (tool_descriptor second) = ["name"; "description"; "inputSchema"]
    /\ at_path (tool_descriptor first) ["name"] = Some (JStr "time_tool")
    /\ at_path (tool_descriptor second) ["name"] = Some (JStr "weather_tool")
    /\ at_path (tool_descriptor first) ["inputSchema"; "properties"; "input_timezone"; "type"]
       = Some (JStr "string")
    /\ at_path (tool_descriptor first) ["inputSchema"; "required"] = None
    /\ at_path (tool_descriptor second) ["inputSchema"; "properties"; "location"; "type"]
       = Some (JStr "string")
    /\ at_path (tool_descriptor second) ["inputSchema"; "required"]
       = Some (JList [JStr "location"]).
Proof.
  intros H Hm.
  pose proof (emitted_run _ _ _ _ (run_tools_list w request_body d H (method_is _ _ Hm))) as E.
  do 2 eexists. split; [reflexivity|]. split; [exact E|].
  repeat split; reflexivity.
Qed.

Lemma tools_list_response_witness :
  exists first second : types.Tool,
    returned list_tools = Return [first; second]
    /\ emitted Sample.world Sample.tools_list_request =
         [result_envelope (JStr "a")
            (JDict [("tools", JList [tool_descriptor first; tool_descriptor second])])]
    /\ keys (tool_descriptor first) = ["name"; "description"; "inputSchema"]
    /\ keys (tool_descriptor second) = ["name"; "description"; "inputSchema"]
    /\ at_path (tool_descriptor first) ["name"] = Some (JStr "time_tool")
    /\ at_path (tool_descriptor second) ["name"] = Some (JStr "weather_tool")
    /\ at_path (tool_descriptor first) ["inputSchema"; "properties"; "input_timezone"; "type"]
       = Some (JStr "string")
    /\ at_path (tool_descriptor first) ["inputSchema"; "required"] = None
    /\ at_path (tool_descriptor second) ["inputSchema"; "properties"; "location"; "type"]
       = Some (JStr "string")
    /\ at_path (tool_descriptor second) ["inputSchema"; "required"]
       = Some (JList [JStr "location"]).
Proof.
  exact (tools_list_response Sample.world Sample.tools_list_request _ eq_refl eq_refl).
Defined.

(** C7 (as amended).  A [tools/call] request that names [time_tool] with an
    [input_timezone] argument that is truthy (for a string: not empty) and
    that [ZoneInfo] does not resolve is answered by a Result envelope with a
    single text item whose text starts with Invalid timezone and the quoted
    argument; and [time_tool] returns, with one item, for every input in
    every world: it never raises. *)
Theorem invalid_timezone_soft_error
    (w : World) (request_body : list byte) (d p a : list (string * json))
    (tz : json) (e : exn) :
  parse w request_body = Return (JDict d) ->
  dict_get d "method" = Some (JStr "tools/call") ->
  dict_get d "params" = Some (JDict p) ->
  dict_get p "name" = Some (JStr "time_tool") ->
  dict_get p "arguments" = Some (JDict a) ->
  dict_get a "input_timezone" = Some tz ->
  truthy tz = true ->
  ZoneInfo w tz = Raise e ->
  emitted w request_body =
    [result_envelope (request_id (JDict d))
       (content_result
          [types.mkTextContent "text"
             ("Invalid timezone '" ++ py_str w tz ++ "'. Error: " ++ exn_text e)])]
  /\ String.prefix ("Invalid timezone '" ++ py_str w tz ++ "'")
       ("Invalid timezone '" ++ py_str w tz ++ "'. Error: " ++ exn_text e) = true
  /\ forall (w' : World) (input : json),
       exists item, returned (time_tool w' input) = Return [item].
Proof.
  intros H Hm Hp Hn Ha Hz Ht Hr. split; [|split].
  - destruct (run_call w request_body d p H (method_is _ _ Hm) (lookup_some _ _ _ _ Hp))
      as [E _].
    rewrite E, (lookup_some _ _ _ _ Hn), (lookup_some _ _ _ _ Ha), call_tool_time.
    rewrite (lookup_some _ _ _ _ Hz), (time_tool_invalid w tz e Ht Hr). reflexivity.
  - replace ("Invalid timezone '" ++ py_str w tz ++ "'. Error: " ++ exn_text e)
      with (("Invalid timezone '" ++ py_str w tz ++ "'") ++ ". Error: " ++ exn_text e).
    + apply prefix_app.
    + rewrite !append_assoc. reflexivity.
  - intros w' input. apply time_tool_returns.
Qed.

Lemma invalid_timezone_soft_error_witness :
  emitted Sample.world Sample.bad_zone_request =
    [result_envelope (JInt 2)
       (content_result
          [types.mkTextContent "text"
             "Invalid timezone 'Not/AZone'. Error: 'No time zone found with key Not/AZone'"])]
  /\ String.prefix "Invalid timezone 'Not/AZone'"
       "Invalid timezone 'Not/AZone'. Error: 'No time zone found with key Not/AZone'" = true
  /\ forall (w' : World) (input : json),
       exists item, returned (time_tool w' input) = Return [item].
Proof.
  exact (invalid_timezone_soft_error Sample.world Sample.bad_zone_request _ _ _
           (JStr "Not/AZone") _
           eq_refl eq_refl eq_refl eq_refl eq_refl eq_refl eq_refl eq_refl).
Defined.

(** C7, as stated, fails: the empty string is an [input_timezone] argument
    that [ZoneInfo] does not resolve, and the request is answered with the
    current local time, not with an Invalid timezone text. *)
Lemma empty_timezone_not_reported :
  parse Sample.world Sample.empty_zone_request =
    Return (JDict [("jsonrpc", JStr "2.0"); ("id", JInt 22); ("method", JStr "tools/call");
                   ("params", JDict [("name", JStr "time_tool");
                                     ("arguments",
                                      JDict [("input_timezone", JStr EmptyString)])])])
  /\ ZoneInfo Sample.world (JStr EmptyString) =
       Raise (ValueError "ZoneInfo keys must be normalized relative paths, got: ")
  /\ emitted Sample.world Sample.empty_zone_request =
       [result_envelope (JInt 22)
          (content_result
             [types.mkTextContent "text" "The current time is 2023-11-14 22:13:20 ."])]
  /\ String.prefix "Invalid timezone ''" "The current time is 2023-11-14 22:13:20 ." = false.
Proof. repeat split; reflexivity. Qed.

(** C8 (as amended).  A [tools/call] request that names [weather_tool] and
    whose [arguments] is absent, or is an object in which [location] is
    missing or empty (any falsy value, the empty string among them), is
    answered by a Result envelope with the single text item Location
    parameter is required. *)
Theorem weather_location_required
    (w : World) (request_body : list byte) (d p : list (string * json)) :
  parse w request_body = Return (JDict d) ->
  dict_get d "method" = Some (JStr "tools/call") ->
  dict_get d "params" = Some (JDict p) ->
  dict_get p "name" = Some (JStr "weather_tool") ->
  (dict_get p "arguments" = None
   \/ exists a, dict_get p "arguments" = Some (JDict a)
                /\ (dict_get a "location" = None
                    \/ exists location, dict_get a "location" = Some location
                                        /\ truthy location = false)) ->
  emitted w request_body =
    [result_envelope (request_id (JDict d))
       (content_result [types.mkTextContent "text" "Location parameter is required."])]
  /\ is_result (result_envelope (request_id (JDict d))
                  (content_result
                     [types.mkTextContent "text" "Location parameter is required."]))
     = true.
Proof.
  intros H Hm Hp Hn Ha. split; [|reflexivity].
  destruct (run_call w request_body d p H (method_is _ _ Hm) (lookup_some _ _ _ _ Hp))
    as [E _].
  rewrite E, (lookup_some _ _ _ _ Hn).
  assert (R : returned (call_tool w (JStr "weather_tool") (lookup p "arguments" (JDict [])))
              = Return [text_content "Location parameter is required."]).
  { destruct Ha as [Ha | (a & Ha & Hl)].
    - rewrite (lookup_none _ _ _ Ha), call_tool_weather. reflexivity.
    - rewrite (lookup_some _ _ _ _ Ha), call_tool_weather.
      destruct Hl as [Hl | (location & Hl & Hf)].
      + rewrite (lookup_none _ _ _ Hl). reflexivity.
      + rewrite (lookup_some _ _ _ _ Hl), (weather_tool_no_location w location Hf).
        reflexivity. }
  rewrite R. reflexivity.
Qed.

Lemma weather_location_required_witness :
  emitted Sample.world Sample.weather_no_location_request =
    [result_envelope (JInt 3)
       (content_result [types.mkTextContent "text" "Location parameter is required."])]
  /\ is_result (result_envelope (JInt 3)
                  (content_result
                     [types.mkTextContent "text" "Location parameter is required."]))
     = true.
Proof.
  exact (weather_location_required Sample.world Sample.weather_no_location_request _ _
           eq_refl eq_refl eq_refl eq_refl
           (or_intror (ex_intro _ [] (conj eq_refl (or_introl eq_refl))))).
Defined.

(** C8, as stated, fails: an [arguments] that is null gives no location, and
    the request is answered by an Error envelope with code -32000, the
    [AttributeError] of [arguments.get], not by a Result. *)
Lemma weather_null_arguments_error :
  parse Online.world Online.weather_null_arguments_request =
    Return (JDict [("jsonrpc", JStr "2.0"); ("id", JInt 12); ("method", JStr "tools/call");
                   ("params", JDict [("name", JStr "weather_tool");
                                     ("arguments", JNull)])])
  /\ emitted Online.world Online.weather_null_arguments_request =
       [error_envelope (JInt 12) (-32000) "'NoneType' object has no attribute 'get'"]
  /\ is_result
       (error_envelope (JInt 12) (-32000) "'NoneType' object has no attribute 'get'")
     = false
  /\ error_code
       (error_envelope (JInt 12) (-32000) "'NoneType' object has no attribute 'get'")
     = Some (JInt (-32000)).
Proof. repeat split; reflexivity. Qed.

(** C9.  A body that parses to a value that is no JSON object (a number, a
    string, an array, ...) is answered by exactly one Error envelope with
    [id] null, code -32700 and a message that begins with the words Parse
    error: the handler of the outer [try] receives the [AttributeError] that
    [message.get] raised, and the generator ends without raising. *)
Theorem non_object_body_parse_error
    (w : World) (request_body : list byte) (message : json) :
  parse w request_body = Return message ->
  is_dict message = false ->
  stream_generator w request_body =
    ([Yield (error_envelope JNull (-32700)
               ("Parse error: " ++
                "'" ++ type_name message ++ "' object has no attribute 'get'"))],
     Return tt)
  /\ String.prefix "Parse error: "
       ("Parse error: " ++ "'" ++ type_name message ++ "' object has no attribute 'get'")
     = true.
Proof.
  intros H Hd. split; [|apply prefix_app].
  apply (run_not_object w request_body message H Hd).
Qed.

Lemma non_object_body_parse_error_witness :
  stream_generator Sample.world Sample.array_request =
    ([Yield (error_envelope JNull (-32700)
               "Parse error: 'list' object has no attribute 'get'")],
     Return tt)
  /\ String.prefix "Parse error: " "Parse error: 'list' object has no attribute 'get'"
     = true.
Proof.
  exact (non_object_body_parse_error Sample.world Sample.array_request _ eq_refl eq_refl).
Defined.

(** C10 (as amended).  A [tools/call] request whose [params] is absent, or
    is an object without a [name], is answered by one Error envelope with
    the request's [id], code -32000 and the message Unknown tool: None. *)
Theorem missing_tool_name_error
    (w : World) (request_body : list byte) (d : list (string * json)) :
  parse w request_body = Return (JDict d) ->
  dict_get d "method" = Some (JStr "tools/call") ->
  (dict_get d "params" = None
   \/ exists p, dict_get d "params" = Some (JDict p) /\ dict_get p "name" = None) ->
  emitted w request_body =
    [error_envelope (request_id (JDict d)) (-32000) "Unknown tool: None"].
Proof.
  intros H Hm Hp.
  assert (P : exists p, lookup d "params" (JDict []) = JDict p /\ dict_get p "name" = None).
  { destruct Hp as [Hp | (p & Hp & Hn)].
    - exists []. rewrite (lookup_none _ _ _ Hp). split; reflexivity.
    - exists p. rewrite (lookup_some _ _ _ _ Hp). split; [reflexivity | exact Hn]. }
  destruct P as (p & Hp' & Hn).
  destruct (run_call w request_body d p H (method_is _ _ Hm) Hp') as [E _].
  rewrite E, (lookup_none _ _ _ Hn).
  rewrite (call_tool_unknown w JNull _ eq_refl eq_refl). reflexivity.
Qed.

Lemma missing_tool_name_error_witness :
  emitted Sample.world Sample.no_params_request =
    [error_envelope (JInt 6) (-32000) "Unknown tool: None"].
Proof.
  exact (missing_tool_name_error Sample.world Sample.no_params_request _
           eq_refl eq_refl (or_introl eq_refl)).
Defined.

(** C10, as stated, fails: a [params] that is null carries no [name], and
    the request with id 11 is answered by the parse-error envelope, code
    -32700 and [id] null, not by Unknown tool: None with code -32000. *)
Lemma null_params_not_unknown_tool :
  parse Online.world Online.null_params_request =
    Return (JDict [("jsonrpc", JStr "2.0"); ("id", JInt 11); ("method", JStr "tools/call");
                   ("params", JNull)])
  /\ emitted Online.world Online.null_params_request =
       [error_envelope JNull (-32700)
          "Parse error: 'NoneType' object has no attribute 'get'"]
  /\ error_envelope JNull (-32700) "Parse error: 'NoneType' object has no attribute 'get'"
     <> error_envelope (JInt 11) (-32000) "Unknown tool: None".
Proof. repeat split; try reflexivity. discriminate. Qed.

(** * Further properties *)

(** ** Helpers *)

Lemma is_dict_true (v : json) : is_dict v = true -> exists d, v = JDict d.
Proof. destruct v; simpl; intros H; try discriminate. now eexists. Qed.

Lemma is_envelope_call (id : json) (o : outcome (list types.TextContent)) :
  is_envelope (call_envelope id o) = true.
Proof. destruct o; reflexivity. Qed.

Lemma run_call_trace (w : World) (request_body : list byte) (d p : list (string * json)) :
  parse w request_body = Return (JDict d) ->
  eq_str (lookup d "method" JNull) "tools/call" = true ->
  lookup d "params" (JDict []) = JDict p ->
  stream_generator w request_body =
    ((trace (call_tool w (lookup p "name" JNull) (lookup p "arguments" (JDict [])))
      ++ [Yield (call_envelope (lookup d "id" JNull)
                   (returned (call_tool w (lookup p "name" JNull)
                                (lookup p "arguments" (JDict [])))))])%list,
     Return tt).
Proof.
  intros H Hm Hp. destruct (run_decoded _ _ _ H) as (decoded & D & L).
  unfold stream_generator. rewrite D, bind_lift_Return, L, bind_lift_Return.
  cbn [get]. rewrite bind_lift_Return.
  rewrite (eq_str_true _ _ Hm). cbn [eq_str String.eqb Ascii.eqb Bool.eqb].
  rewrite ?bind_lift_Return. cbn [eq_str String.eqb Ascii.eqb Bool.eqb].
  rewrite ?bind_lift_Return, Hp. cbn [get]. rewrite ?bind_lift_Return.
  destruct (call_tool w (lookup p "name" JNull) (lookup p "arguments" (JDict [])))
    as [t [items|e]]; reflexivity.
Qed.

(** The routes of [stream_generator], each with the run it gives as [Hrun]. *)
Ltac by_route w request_body :=
  let message := fresh "message" in
  let e := fresh "e" in
  let d := fresh "d" in
  let p := fresh "p" in
  destruct (parse w request_body) as [message|e] eqn:Hparse;
  [ destruct (is_dict message) eqn:Hdict;
    [ destruct (is_dict_true _ Hdict) as [d ->];
      destruct (eq_str (lookup d "method" JNull) "initialize") eqn:Hinit;
      [ pose proof (run_initialize w request_body d Hparse Hinit) as Hrun
      | destruct (eq_str (lookup d "method" JNull) "tools/list") eqn:Hlist;
        [ pose proof (run_tools_list w request_body d Hparse Hlist) as Hrun
        | destruct (eq_str (lookup d "method" JNull) "tools/call") eqn:Hcall;
          [ destruct (is_dict (lookup d "params" (JDict []))) eqn:Hshape;
            [ destruct (is_dict_true _ Hshape) as [p Hparams];
              pose proof (run_call_trace w request_body d p Hparse Hcall Hparams) as Hrun
            | pose proof (run_call_bad_params w request_body d Hparse Hcall Hshape) as Hrun ]
          | pose proof (run_unknown_method w request_body d Hparse Hinit Hlist Hcall)
              as Hrun ] ] ]
    | pose proof (run_not_object w request_body message Hparse Hdict) as Hrun ]
  | pose proof (run_parse_failure w request_body e Hparse) as Hrun ].

Lemma emitted_call (w : World) (name arguments : json) (envelope : json) :
  yields (trace (call_tool w name arguments) ++ [Yield envelope])%list = [envelope].
Proof. rewrite yields_app, (call_tool_quiet w name arguments). reflexivity. Qed.

(** ** Every request is answered *)

Lemma stream_generator_answer (w : World) (request_body : list byte) :
  exists envelope,
    emitted w request_body = [envelope]
    /\ is_envelope envelope = true
    /\ returned (stream_generator w request_body) = Return tt.
Proof.
  unfold emitted. by_route w request_body; rewrite Hrun; cbn [trace returned fst snd];
    try (eexists; split; [reflexivity|]; split; reflexivity).
  eexists. split; [apply emitted_call|]. split; [apply is_envelope_call | reflexivity].
Qed.

(** X1.  Whatever the bytes of the body and whatever the outside world does,
    [stream_generator] yields exactly one line and ends without raising; the
    line is a well-formed envelope: version 2.0, an id, and either a result
    or an error whose code is -32700, -32601 or -32000. *)
Theorem stream_generator_always_answers (w : World) (request_body : list byte) :
  exists envelope,
    emitted w request_body = [envelope]
    /\ is_envelope envelope = true
    /\ returned (stream_generator w request_body) = Return tt.
Proof. exact (stream_generator_answer w request_body). Qed.

(** X2.  An envelope with code -32601 is sent only to a request that is an
    object whose [method] is none of [initialize], [tools/list] and
    [tools/call], and it is the Method not found envelope with the request's
    id. *)
Theorem method_not_found_origin
    (w : World) (request_body : list byte) (envelope : json) :
  In envelope (emitted w request_body) ->
  error_code envelope = Some (JInt (-32601)) ->
  exists d,
    parse w request_body = Return (JDict d)
    /\ eq_str (lookup d "method" JNull) "initialize" = false
    /\ eq_str (lookup d "method" JNull) "tools/list" = false
    /\ eq_str (lookup d "method" JNull) "tools/call" = false
    /\ envelope = error_envelope (request_id (JDict d)) (-32601)
                    ("Method not found: " ++ py_str w (lookup d "method" JNull)).
Proof.
  unfold emitted. intros Hin Hcode.
  by_route w request_body; rewrite Hrun in Hin; cbn [trace fst] in Hin;
    try rewrite emitted_call in Hin;
    destruct Hin as [<-|[]];
    try (simpl in Hcode; discriminate).
  - exfalso. revert Hcode.
    destruct (returned (call_tool w (lookup p "name" JNull) (lookup p "arguments" (JDict []))));
      simpl; discriminate.
  - exists d. repeat split; assumption || reflexivity.
Qed.

Lemma method_not_found_origin_witness :
  exists d,
    parse Sample.world Sample.unknown_method_request = Return (JDict d)
    /\ eq_str (lookup d "method" JNull) "initialize" = false
    /\ eq_str (lookup d "method" JNull) "tools/list" = false
    /\ eq_str (lookup d "method" JNull) "tools/call" = false
    /\ error_envelope (JInt 8) (-32601) "Method not found: resources/list"
       = error_envelope (request_id (JDict d)) (-32601)
           ("Method not found: " ++ py_str Sample.world (lookup d "method" JNull)).
Proof.
  exact (method_not_found_origin Sample.world Sample.unknown_method_request
           (error_envelope (JInt 8) (-32601) "Method not found: resources/list")
           (or_introl eq_refl) eq_refl).
Defined.

(** ** The registry and its tools *)

Ltac split_outcomes :=
  repeat match goal with
         | |- context [match ?o with Return _ => _ | Raise _ => _ end] => destruct o; simpl
         | |- context [match ?o with Some _ => _ | None => _ end] => destruct o; simpl
         | |- context [if ?b then _ else _] => destruct b; simpl
         end.

Lemma time_tool_returns_text (w : World) (input_timezone : json) :
  exists s, returned (time_tool w input_timezone) = Return [text_content s].
Proof.
  unfold time_tool, returned, try_except, bind, lift, ret, emit. simpl.
  split_outcomes; eexists; reflexivity.
Qed.

Lemma weather_tool_returns_text (w : World) (location : json) :
  exists s, returned (weather_tool w location) = Return [text_content s].
Proof.
  unfold weather_tool, try_except2, returned, try_except, bind, lift, ret, emit. simpl.
  split_outcomes; eexists; reflexivity.
Qed.

(** X3.  [weather_tool] never raises: whatever the location, the
    environment and the network do (no key, a failing request, an error
    status, a body that is no JSON, a document of another shape), it returns
    exactly one item of type text. *)
Theorem weather_tool_never_raises (w : World) (location : json) :
  exists s, returned (weather_tool w location) = Return [text_content s].
Proof. exact (weather_tool_returns_text w location). Qed.

Lemma call_tool_listed (w : World) (s : string) (a : list (string * json)) :
  In s (map types.name listed_tools) ->
  exists t, returned (call_tool w (JStr s) (JDict a)) = Return [text_content t].
Proof.
  simpl. intros [<- | [<- | []]].
  - rewrite call_tool_time. apply time_tool_returns_text.
  - rewrite call_tool_weather. apply weather_tool_returns_text.
Qed.

(** X4.  The registry is consistent: [call_tool] accepts a tool name (with
    an object as arguments it returns one text item) exactly when
    [list_tools] lists that name; every other name is refused. *)
Theorem call_tool_accepts_exactly_listed
    (w : World) (s : string) (a : list (string * json)) :
  (exists t, returned (call_tool w (JStr s) (JDict a)) = Return [text_content t])
  <-> In s (map types.name listed_tools).
Proof.
  split.
  - intros [t Ht]. simpl.
    destruct (String.eqb s "time_tool") eqn:E1; [apply String.eqb_eq in E1; auto|].
    destruct (String.eqb s "weather_tool") eqn:E2; [apply String.eqb_eq in E2; auto|].
    rewrite (call_tool_unknown w (JStr s) (JDict a) E1 E2) in Ht. discriminate.
  - apply call_tool_listed.
Qed.

(** X5.  A [tools/call] request that names a listed tool and whose
    [arguments] is an object or absent is always answered by a Result
    envelope with the request's id and one text item, never by an Error:
    every failure inside a tool comes back as text. *)
Theorem listed_tool_always_result
    (w : World) (request_body : list byte) (d p : list (string * json)) (s : string) :
  parse w request_body = Return (JDict d) ->
  dict_get d "method" = Some (JStr "tools/call") ->
  lookup d "params" (JDict []) = JDict p ->
  dict_get p "name" = Some (JStr s) ->
  In s (map types.name listed_tools) ->
  is_dict (lookup p "arguments" (JDict [])) = true ->
  exists t,
    emitted w request_body =
      [result_envelope (request_id (JDict d)) (content_result [text_content t])].
Proof.
  intros H Hm Hp Hn Hs Ha.
  destruct (is_dict_true _ Ha) as [a Ha'].
  destruct (call_tool_listed w s a Hs) as [t Ht].
  exists t.
  destruct (run_call w request_body d p H (method_is _ _ Hm) Hp) as [E _].
  rewrite E, (lookup_some _ _ _ _ Hn), Ha', Ht. reflexivity.
Qed.

Lemma listed_tool_always_result_witness :
  exists t,
    emitted Sample.world Sample.bad_zone_request =
      [result_envelope (JInt 2) (content_result [text_content t])].
Proof.
  exact (listed_tool_always_result Sample.world Sample.bad_zone_request _ _ "time_tool"
           eq_refl eq_refl eq_refl eq_refl (or_introl eq_refl) eq_refl).
Defined.

(** X6.  A [tools/call] request that names [time_tool] or [weather_tool]
    with an [arguments] that is present and no object (null, a list, a
    string, ...) is answered by an Error envelope with the request's id and
    code -32000 whose message is the [AttributeError] of [arguments.get];
    the tool itself is not run: nothing outside is touched. *)
Theorem registered_tool_bad_arguments
    (w : World) (request_body : list byte) (d p : list (string * json))
    (name arguments : json) :
  parse w request_body = Return (JDict d) ->
  dict_get d "method" = Some (JStr "tools/call") ->
  lookup d "params" (JDict []) = JDict p ->
  dict_get p "name" = Some name ->
  eq_str name "time_tool" || eq_str name "weather_tool" = true ->
  dict_get p "arguments" = Some arguments ->
  is_dict arguments = false ->
  stream_generator w request_body =
    ([CallTool name arguments;
      Yield (error_envelope (request_id (JDict d)) (-32000)
               ("'" ++ type_name arguments ++ "' object has no attribute 'get'"))],
     Return tt).
Proof.
  intros H Hm Hp Hn Hreg Ha Hd.
  rewrite (run_call_trace w request_body d p H (method_is _ _ Hm) Hp).
  rewrite (lookup_some _ _ _ _ Hn), (lookup_some _ _ _ _ Ha).
  unfold call_tool.
  destruct (eq_str name "time_tool") eqn:E1.
  - rewrite (get_not_dict _ _ _ Hd). reflexivity.
  - simpl in Hreg. rewrite Hreg, (get_not_dict _ _ _ Hd). reflexivity.
Qed.

Lemma registered_tool_bad_arguments_witness :
  stream_generator Online.world Online.null_arguments_request =
    ([CallTool (JStr "time_tool") JNull;
      Yield (error_envelope (JInt 9) (-32000)
               "'NoneType' object has no attribute 'get'")],
     Return tt).
Proof.
  exact (registered_tool_bad_arguments Online.world Online.null_arguments_request _ _
           (JStr "time_tool") JNull
           eq_refl eq_refl eq_refl eq_refl eq_refl eq_refl eq_refl).
Defined.

(** ** The paths of [weather_tool] *)

(** X7.  With a location but no API key in the environment (the variable is
    unset or empty), [weather_tool] prints nothing and makes no HTTP
    request: when [load_dotenv] returns it reads the variable and answers
    with the key-not-found text; when [load_dotenv] raises it answers with
    the text of that exception, under Error fetching weather data for an
    exception of [requests] and under Error getting weather for any
    other. *)
Theorem weather_without_key (w : World) (location : json) :
  truthy location = true ->
  getenv w "WEATHER_API_KEY" = None \/ getenv w "WEATHER_API_KEY" = Some EmptyString ->
  weather_tool w location =
    match load_dotenv w with
    | Return _ =>
        ([LoadDotenv; GetEnv "WEATHER_API_KEY"],
         Return [text_content weather_key_missing])
    | Raise e =>
        ([LoadDotenv],
         Return [text_content
                   ((if is_RequestException e
                     then "Error fetching weather data: "
                     else "Error getting weather: ") ++ exn_text e)])
    end.
Proof.
  unfold weather_tool, try_except2. intros -> Hkey.
  destruct (load_dotenv w) as [loaded|e].
  - destruct Hkey as [-> | ->]; reflexivity.
  - unfold try_except, bind, lift, ret, emit. simpl.
    destruct (is_RequestException e); reflexivity.
Qed.

Lemma weather_without_key_witness :
  weather_tool Sample.world (JStr "Paris") =
    ([LoadDotenv; GetEnv "WEATHER_API_KEY"], Return [text_content weather_key_missing]).
Proof.
  exact (weather_without_key Sample.world (JStr "Paris") eq_refl (or_introl eq_refl)).
Defined.

(** X8.  With a location and a non-empty key, [weather_tool] makes at most
    one HTTP request, a GET of the provider's current.json with the key and
    the location in the query (neither is escaped), and only after printing
    that URL, key included, on standard output: exactly one GET when
    [load_dotenv] and [print] both return, none when [load_dotenv] raises
    (nothing is printed either) or when [print] raises.  Whatever the
    request gives, nothing else is done. *)
Theorem weather_requests_once (w : World) (location : json) (api_key : string) :
  truthy location = true ->
  getenv w "WEATHER_API_KEY" = Some api_key ->
  String.eqb api_key EmptyString = false ->
  trace (weather_tool w location) =
    match load_dotenv w with
    | Raise _ => [LoadDotenv]
    | Return _ =>
        match print w ("http://api.weatherapi.com/v1/current.json?key=" ++ api_key
                       ++ "&q=" ++ py_str w location ++ "&aqi=no") with
        | Raise _ =>
            [LoadDotenv; GetEnv "WEATHER_API_KEY";
             Print ("http://api.weatherapi.com/v1/current.json?key=" ++ api_key
                    ++ "&q=" ++ py_str w location ++ "&aqi=no")]
        | Return _ =>
            [LoadDotenv; GetEnv "WEATHER_API_KEY";
             Print ("http://api.weatherapi.com/v1/current.json?key=" ++ api_key
                    ++ "&q=" ++ py_str w location ++ "&aqi=no");
             HttpGet ("http://api.weatherapi.com/v1/current.json?key=" ++ api_key
                      ++ "&q=" ++ py_str w location ++ "&aqi=no")]
        end
    end.
Proof.
  unfold weather_tool, try_except2. intros -> Hkey Hne.
  destruct (load_dotenv w) as [loaded|e].
  - rewrite Hkey, Hne.
    destruct (print w _) as [[]|e].
    + unfold trace, try_except, bind, lift, ret, emit. simpl.
      split_outcomes; reflexivity.
    + unfold trace, try_except, bind, lift, ret, emit. simpl.
      destruct (is_RequestException e); reflexivity.
  - unfold trace, try_except, bind, lift, ret, emit. simpl.
    destruct (is_RequestException e); reflexivity.
Qed.

Lemma weather_requests_once_witness :
  trace (weather_tool Online.world (JStr "Paris")) =
    [LoadDotenv; GetEnv "WEATHER_API_KEY";
     Print "http://api.weatherapi.com/v1/current.json?key=KEY&q=Paris&aqi=no";
     HttpGet "http://api.weatherapi.com/v1/current.json?key=KEY&q=Paris&aqi=no"].
Proof.
  exact (weather_requests_once Online.world (JStr "Paris") "KEY" eq_refl eq_refl eq_refl).
Defined.


Section WeatherRequest.

#[local] Arguments dict_get : simpl never.
#[local] Arguments truthy : simpl never.

Variable w : World.
Variable location : json.
Variable loaded : bool.
Variable api_key : string.

Hypothesis Hlocation : truthy location = true.
Hypothesis Hdotenv : load_dotenv w = Return loaded.
Hypothesis Hkey : getenv w "WEATHER_API_KEY" = Some api_key.
Hypothesis Hkey_not_empty : String.eqb api_key EmptyString = false.
Hypothesis Hprint : print w (weather_url w api_key location) = Return tt.

(** X9.  When the request fails, or its status is an error, the exception is
    reported as text: Error fetching weather data for an exception of
    [requests], Error getting weather for any other, each followed by the
    exception's message. *)
Theorem weather_request_failure (e : exn) :
  requests_get w (weather_url w api_key location) = Raise e
  \/ (exists resp, requests_get w (weather_url w api_key location) = Return resp
                   /\ raise_for_status resp = Raise e) ->
  returned (weather_tool w location) =
    Return [text_content
              ((if is_RequestException e
                then "Error fetching weather data: "
                else "Error getting weather: ") ++ exn_text e)].
Proof.
  unfold weather_url in *.
  unfold weather_tool, try_except2. rewrite Hlocation, Hdotenv, Hkey, Hkey_not_empty, Hprint.
  intros [Hget | (resp & Hget & Hstatus)]; rewrite Hget;
    destruct (is_RequestException e) eqn:R;
    unfold returned, try_except, bind, lift, ret, emit; simpl;
    rewrite ?Hstatus; simpl; rewrite R; reflexivity.
Qed.

Variable resp : Response.
Variable document : list (string * json).

Hypothesis Hget : requests_get w (weather_url w api_key location) = Return resp.
Hypothesis Hstatus : raise_for_status resp = Return tt.
Hypothesis Hjson : response_json resp = Return (JDict document).




End WeatherRequest.

Lemma weather_request_failure_witness :
  returned (weather_tool Online.world (JStr "Nowhere")) =
    Return [text_content "Error fetching weather data: 400 Client Error: Bad Request"].
Proof.
  exact (weather_request_failure Online.world (JStr "Nowhere") true "KEY"
           eq_refl eq_refl eq_refl eq_refl eq_refl
           (mkExn "HTTPError" true "400 Client Error: Bad Request")
           (or_intror (ex_intro _ _ (conj eq_refl eq_refl)))).
Defined.




(** ** The paths of [time_tool] *)

(** X13.  Without a time zone (the argument is absent, null or empty)
    [time_tool] reads the clock, never consults the zone database, and
    answers with the local time formatted by year-month-day
    hour:minute:second, zone name and offset. *)
Theorem time_tool_local_time (w : World) (input_timezone : json) (formatted : string) :
  truthy input_timezone = false ->
  strftime w (now w) "%Y-%m-%d %H:%M:%S %Z%z" = Return formatted ->
  time_tool w input_timezone =
    ([ClockNow], Return [text_content ("The current time is " ++ formatted ++ ".")]).
Proof.
  unfold time_tool. intros -> Hf.
  unfold try_except, bind, lift, ret, emit. simpl. rewrite Hf. reflexivity.
Qed.

Lemma time_tool_local_time_witness :
  time_tool Sample.world JNull =
    ([ClockNow], Return [text_content "The current time is 2023-11-14 22:13:20 ."]).
Proof.
  exact (time_tool_local_time Sample.world JNull _ eq_refl eq_refl).
Defined.



(** ** What reaches the network *)

Lemma time_tool_no_http (w : World) (input_timezone : json) :
  existsb is_http (trace (time_tool w input_timezone)) = false.
Proof.
  unfold time_tool, trace, try_except, bind, lift, ret, emit. simpl.
  split_outcomes; reflexivity.
Qed.

Lemma weather_tool_http (w : World) (location : json) :
  existsb is_http (trace (weather_tool w location)) = true ->
  truthy location = true
  /\ exists key, getenv w "WEATHER_API_KEY" = Some key /\ key <> EmptyString.
Proof.
  unfold weather_tool, try_except2, trace, try_except, bind, lift, ret, emit.
  destruct (truthy location); simpl; [|discriminate].
  destruct (load_dotenv w); simpl; [|destruct (is_RequestException e); discriminate].
  destruct (getenv w "WEATHER_API_KEY") as [key|]; simpl; [|discriminate].
  destruct (String.eqb key EmptyString) eqn:K; simpl; [discriminate|].
  intros _. split; [reflexivity|]. exists key. split; [reflexivity|].
  intros ->. discriminate.
Qed.

(** X15.  An HTTP request is made only while answering a [tools/call] that
    names [weather_tool] with an object as arguments, a truthy location and
    a non-empty API key in the environment; no other request, whatever its
    bytes, reaches the network. *)
Theorem network_only_for_weather_tool (w : World) (request_body : list byte) :
  existsb is_http (trace (stream_generator w request_body)) = true ->
  exists d p a key,
    parse w request_body = Return (JDict d)
    /\ lookup d "method" JNull = JStr "tools/call"
    /\ lookup d "params" (JDict []) = JDict p
    /\ lookup p "name" JNull = JStr "weather_tool"
    /\ lookup p "arguments" (JDict []) = JDict a
    /\ truthy (lookup a "location" JNull) = true
    /\ getenv w "WEATHER_API_KEY" = Some key
    /\ key <> EmptyString.
Proof.
  intros Hnet.
  by_route w request_body; rewrite Hrun in Hnet; cbn [trace fst] in Hnet;
    try (simpl in Hnet; discriminate).
  rewrite existsb_app in Hnet. simpl in Hnet. rewrite orb_false_r in Hnet.
  unfold call_tool in Hnet. rewrite trace_bind in Hnet.
  cbn [emit trace returned fst snd app existsb is_http orb] in Hnet.
  destruct (eq_str (lookup p "name" JNull) "time_tool") eqn:Ht.
  { exfalso. rewrite trace_bind in Hnet. cbn [lift trace returned fst snd app] in Hnet.
    destruct (get (lookup p "arguments" (JDict [])) "input_timezone" JNull);
      [rewrite time_tool_no_http in Hnet|]; discriminate. }
  destruct (eq_str (lookup p "name" JNull) "weather_tool") eqn:Hw; [|discriminate].
  rewrite trace_bind in Hnet. cbn [lift trace returned fst snd app] in Hnet.
  destruct (is_dict (lookup p "arguments" (JDict []))) eqn:Ha.
  2:{ rewrite (get_not_dict _ _ _ Ha) in Hnet. discriminate. }
  destruct (is_dict_true _ Ha) as [a Ha']. rewrite Ha' in Hnet. cbn [get] in Hnet.
  destruct (weather_tool_http w _ Hnet) as (Hl & key & Hk & Hne).
  exists d, p, a, key. repeat split; try assumption.
  - apply eq_str_true, Hcall.
  - apply eq_str_true, Hw.
Qed.

Lemma network_only_for_weather_tool_witness :
  exists d p a key,
    parse Online.world Online.paris_request = Return (JDict d)
    /\ lookup d "method" JNull = JStr "tools/call"
    /\ lookup d "params" (JDict []) = JDict p
    /\ lookup p "name" JNull = JStr "weather_tool"
    /\ lookup p "arguments" (JDict []) = JDict a
    /\ truthy (lookup a "location" JNull) = true
    /\ getenv Online.world "WEATHER_API_KEY" = Some key
    /\ key <> EmptyString.
Proof.
  exact (network_only_for_weather_tool Online.world Online.paris_request eq_refl).
Defined.

(** ** The HTTP handler *)

(** X16.  [handle_stream] never raises and always gives a response of media
    type application/x-ndjson whose stream is exactly one well-formed
    envelope: for a POST whose body can be read, status 200 and the stream
    of [stream_generator] on that body; for a POST whose body cannot be
    read, status 500 and the error -32000 with the exception's message and
    id null; for any other method, status 405 and the error -32000 Method
    not allowed with id null. *)
Theorem handle_stream_response (w : World) (request : starlette.Request) :
  exists response,
    handle_stream w request = ([], Return response)
    /\ starlette.media_type response = "application/x-ndjson"
    /\ (exists envelope,
          yields (trace (starlette.content response)) = [envelope]
          /\ is_envelope envelope = true
          /\ returned (starlette.content response) = Return tt)
    /\ match String.eqb (starlette.method request) "POST", starlette.body request with
       | true, Return body =>
           starlette.status_code response = 200
           /\ starlette.content response = stream_generator w body
       | true, Raise e =>
           starlette.status_code response = 500
           /\ yields (trace (starlette.content response))
              = [error_envelope JNull (-32000) (exn_text e)]
       | false, _ =>
           starlette.status_code response = 405
           /\ yields (trace (starlette.content response))
              = [error_envelope JNull (-32000) "Method not allowed"]
       end.
Proof.
  unfold handle_stream.
  destruct (String.eqb (starlette.method request) "POST").
  - destruct (starlette.body request) as [body|e].
    + eexists. split; [reflexivity|]. split; [reflexivity|]. split.
      * apply (stream_generator_answer w body).
      * split; reflexivity.
    + eexists. split; [reflexivity|]. split; [reflexivity|]. split.
      * eexists. repeat split.
      * split; reflexivity.
  - eexists. split; [reflexivity|]. split; [reflexivity|]. split.
    + eexists. repeat split.
    + split; reflexivity.
Qed.

(** ** The stream transport *)

(** X17.  [read_message] and [write_message] never raise.  When the
    transport has a read stream whose next line is not empty, decodes, and
    parses once stripped, [read_message] returns the parsed value; in every
    other case (no stream, a failing read, end of stream, bytes that do not
    decode, text that is no JSON) it returns [None].  So a result other
    than [None] is always the value of such a line, while [None] may also
    be a line that holds the JSON null. *)
Theorem transport_never_raises
    (w : World) (strip : string -> string) (self : StreamableHttpTransport) (m : json) :
  write_message self m = ([], Return tt)
  /\ exists r,
       read_message w strip self = ([], Return r)
       /\ (forall stream line decoded message,
             read_stream self = Some stream ->
             readline stream = Return line ->
             line <> [] ->
             decode w line = Return decoded ->
             json_loads w (strip decoded) = Return message ->
             r = message)
       /\ ((forall stream line decoded message,
              read_stream self = Some stream ->
              readline stream = Return line ->
              line <> [] ->
              decode w line = Return decoded ->
              json_loads w (strip decoded) <> Return message) ->
           r = JNull)
       /\ (r <> JNull ->
           exists stream line decoded,
             read_stream self = Some stream
             /\ readline stream = Return line
             /\ line <> []
             /\ decode w line = Return decoded
             /\ json_loads w (strip decoded) = Return r).
Proof.
  split.
  - unfold write_message. destruct (write_stream self) as [stream|]; [|reflexivity].
    unfold try_except, bind, lift, ret.
    destruct (write stream m); [destruct (drain stream) as [[]|]|]; reflexivity.
  - unfold read_message. destruct (read_stream self) as [stream|].
    2:{ exists JNull. split; [reflexivity|]. split; [|split].
        - intros ? ? ? ? H. discriminate.
        - reflexivity.
        - intros H. now contradiction H. }
    unfold try_except, bind, lift, ret.
    destruct (readline stream) as [[|b line]|e] eqn:R.
    + exists JNull. split; [reflexivity|]. split; [|split].
      * intros s l dd mm Hs Hr Hl. inversion Hs; subst.
        rewrite R in Hr. inversion Hr; subst. contradiction.
      * reflexivity.
      * intros H. now contradiction H.
    + destruct (decode w (b :: line)) as [decoded|e] eqn:D.
      * destruct (json_loads w (strip decoded)) as [message|e] eqn:L.
        -- exists message. split; [reflexivity|]. split; [|split].
           ++ intros s l dd mm Hs Hr _ Hd Hl. inversion Hs; subst.
              rewrite R in Hr. inversion Hr; subst. rewrite D in Hd. inversion Hd; subst.
              rewrite L in Hl. inversion Hl; subst. reflexivity.
           ++ intros H. exfalso.
              apply (H stream (b :: line) decoded message eq_refl R ltac:(discriminate) D L).
           ++ intros _. exists stream, (b :: line), decoded.
              repeat split; try assumption. discriminate.
        -- exists JNull. split; [reflexivity|]. split; [|split].
           ++ intros s l dd mm Hs Hr _ Hd Hl. inversion Hs; subst.
              rewrite R in Hr. inversion Hr; subst. rewrite D in Hd. inversion Hd; subst.
              rewrite L in Hl. discriminate.
           ++ reflexivity.
           ++ intros H. now contradiction H.
      * exists JNull. split; [reflexivity|]. split; [|split].
        -- intros s l dd mm Hs Hr _ Hd. inversion Hs; subst.
           rewrite R in Hr. inversion Hr; subst. rewrite D in Hd. discriminate.
        -- reflexivity.
        -- intros H. now contradiction H.
    + exists JNull. split; [reflexivity|]. split; [|split].
      * intros s l dd mm Hs Hr. inversion Hs; subst. rewrite R in Hr. discriminate.
      * reflexivity.
      * intros H. now contradiction H.
Qed.
